(** * Oracle AWR RAG application: the ingestion, indexing, metadata and
      retrieval core

    A shallow embedding of
      - [src/ingestor/metadata_manager.py]  (class [MetadataManager]),
      - [src/ingestor/processor.py]         (class [DocumentProcessor]),
      - [src/core/vector_store.py]          (class [VectorStoreManager]),
      - [src/core/retriever.py]             (class [DocumentRetriever]),
    with the constants of [src/config/settings.py] they use, and the
    properties of the specification that concern them.

    Conventions.  Python [int] is [Z].  Identifiers, file names, paths and
    status words are only ever compared for equality and are [string];
    the text of a chunk is inspected character by character ([str.strip])
    and is a list of Unicode code points.  A Python [dict] used as a map is
    a [gmap].  A method that mutates [self] takes the state and returns
    the new one next to its result; [datetime.now().isoformat()] is the
    argument [now] of the methods that read the clock.  A Python exception
    is a value of [exn], and a call that may raise returns a [result]. *)

From Stdlib Require Import ZArith NArith Lia.
From stdpp Require Import gmap strings list fin_maps.

Local Open Scope Z_scope.

(** ** Exceptions *)

(** The exceptions the four classes raise.  [CustomException] is the
    wrapper of [utils/exception.py]: [raise CustomException(e, sys)]
    carries the exception it wraps.  [LibraryError] stands for whatever an
    external library (the file system, the JSON parser, the loader, the
    Qdrant client) raises. *)
Inductive exn : Type :=
  | FileNotFoundError (msg : string)
  | ValueError (msg : string)
  | Exception (msg : string)
  | AttributeError (msg : string)
  | TypeError (msg : string)
  | LibraryError (msg : string)
  | CustomException (cause : exn).

Inductive result (A : Type) : Type :=
  | Ok (a : A)
  | Raise (e : exn).
Arguments Ok {A} a.
Arguments Raise {A} e.

(** Sequencing of calls that may raise ([x ← r; k] runs [k] when [r]
    returned), and [try: ... except Exception as e:]. *)
#[global] Instance result_ret : MRet result := λ A a, Ok a.

#[global] Instance result_bind : MBind result := λ A B k r,
  match r with
  | Ok a => k a
  | Raise e => Raise e
  end.

Definition try_except {A} (body : result A) (handler : exn → result A)
    : result A :=
  match body with
  | Ok a => Ok a
  | Raise e => handler e
  end.

(** ** Python values read from a JSON file *)

(** What [json.load] returns.  A float is kept as its literal: no
    operation modelled here computes with one. *)
#[warnings="-register-all"]
Inductive json : Type :=
  | JNull
  | JBool (b : bool)
  | JInt (z : Z)
  | JFloat (literal : string)
  | JStr (s : string)
  | JList (l : list json)
  | JDict (kv : gmap string json).

(** [data.get(key, default)]: only a dict has the method. *)
Definition py_get (data : json) (key : string) (default : json) : result json :=
  match data with
  | JDict kv => Ok (match kv !! key with Some v => v | None => default end)
  | _ => Raise (AttributeError "object has no attribute 'get'")
  end.

(** [len(x)] on a value read from JSON: strings, lists and dicts have a
    length, the other values raise [TypeError]. *)
Definition py_len (x : json) : result nat :=
  match x with
  | JStr s => Ok (String.length s)
  | JList l => Ok (length l)
  | JDict kv => Ok (size kv)
  | _ => Raise (TypeError "object has no len()")
  end.

(** ** The external libraries *)

(** A LangChain [Document]: its text and its metadata dict. *)
Record Document : Type := mkDocument {
  page_content : list N;
  metadata : gmap string string
}.

(** [qdrant_client.models]: the part of the filter language the retriever
    builds. *)
Inductive Match : Type :=
  | MatchAny (any : list string).

Record FieldCondition : Type := mkFieldCondition {
  key : string;
  match_cond : Match
}.

Record Filter : Type := mkFilter {
  must : list FieldCondition
}.

(** What [vectorstore.as_retriever(search_type=..., search_kwargs=...)]
    is given. *)
Record Retriever : Type := mkRetriever {
  search_type : string;
  search_k : Z;
  search_filter : option Filter
}.

(** The vector database behind [self.client] and the LangChain vector
    store, as the two classes use it.  [Store] is the state of the
    collection; every call may raise. *)
Record Qdrant (Store : Type) : Type := mkQdrant {
  (** [client.get_collection(collection_name).points_count] *)
  get_collection : Store → result Z;
  (** [QdrantVectorStore(client=..., collection_name=..., embedding=...)] *)
  new_vectorstore : Store → result ();
  (** [vectorstore.add_documents(documents=...)] *)
  add_documents : list Document → Store → result (list string) * Store;
  (** [retriever.invoke(query)] *)
  invoke : Retriever → string → Store → result (list Document)
}.
Arguments get_collection {Store} _ _.
Arguments new_vectorstore {Store} _ _.
Arguments add_documents {Store} _ _ _.
Arguments invoke {Store} _ _ _ _.

(** How Qdrant reads a filter on a stored point.  LangChain stores a
    document under the payload keys [page_content] and [metadata], so the
    key [metadata.f] addresses the field [f] of the metadata dict.
    [MatchAny] holds when the stored value equals one of the listed
    values; all [must] conditions have to hold. *)
Fixpoint remove_prefix (p s : string) : option string :=
  match p, s with
  | EmptyString, _ => Some s
  | String a p', String b s' =>
      if Ascii.eqb a b then remove_prefix p' s' else None
  | String _ _, EmptyString => None
  end.

Definition payload_field (d : Document) (k : string) : option string :=
  match remove_prefix "metadata." k with
  | Some f => metadata d !! f
  | None => None
  end.

Definition condition_holds (d : Document) (c : FieldCondition) : bool :=
  match payload_field d (key c), match_cond c with
  | Some v, MatchAny any => bool_decide (v ∈ any)
  | None, _ => false
  end.

Definition filter_holds (f : Filter) (d : Document) : bool :=
  forallb (condition_holds d) (must f).

(** An answer of the library respects the retriever it was asked
    through: it has at most [k] documents, and each of them passes the
    filter when there is one. *)
Definition respects (r : Retriever) (docs : list Document) : Prop :=
  (length docs ≤ Z.to_nat (search_k r))%nat
  ∧ ∀ f, search_filter r = Some f →
         Forall (λ d, filter_holds f d = true) docs.

(** ** Logging and the state of the collection *)

(** The WARNING and ERROR records of the vector store manager and of the
    retriever; INFO records are not modelled. *)
Inductive log_event : Type :=
  | WarnNoDocuments
  | ErrNoPointsAdded
  | WarnPointsMismatch (expected : nat) (added : Z)
  | ErrIndexingFailed (e : exn)
  | ErrVectorstoreFailed (e : exn)
  | WarnNoDocIds
  | ErrRetrievalFailed (e : exn).

(** A method that talks to the collection: from the state of the
    collection to its outcome, the state it leaves and the records it
    logged. *)
Definition prog (Store A : Type) : Type :=
  Store → result A * Store * list log_event.

#[global] Instance prog_ret {Store} : MRet (prog Store) :=
  λ A a s, (Ok a, s, []).

#[global] Instance prog_bind {Store} : MBind (prog Store) :=
  λ A B k p s,
    match p s with
    | (Ok a, s1, l1) => let '(r, s2, l2) := k a s1 in (r, s2, l1 ++ l2)
    | (Raise e, s1, l1) => (Raise e, s1, l1)
    end.

Definition raise {Store A} (e : exn) : prog Store A :=
  λ s, (Raise e, s, []).

Definition log {Store} (ev : log_event) : prog Store () :=
  λ s, (Ok (), s, [ev]).

(** A call that reads the collection, and one that changes it. *)
Definition read {Store A} (f : Store → result A) : prog Store A :=
  λ s, (f s, s, []).

Definition update {Store A} (f : Store → result A * Store) : prog Store A :=
  λ s, (f s, []).

Definition try_prog {Store A} (body : prog Store A)
    (handler : exn → prog Store A) : prog Store A :=
  λ s,
    match body s with
    | (Raise e, s1, l1) => let '(r, s2, l2) := handler e s1 in (r, s2, l1 ++ l2)
    | done => done
    end.

(** ** [ingestor/metadata_manager.py] *)

Module MetadataManager.

(** One value of [metadata['documents']]. [last_updated] is the key that
    only [update_document_status] adds. *)
Record DocInfo : Type := mkDocInfo {
  filename : string;
  chunk_count : Z;
  file_size : Z;
  ingested_at : string;
  status : string;
  last_updated : option string
}.

(** [metadata['statistics']]. *)
Record Statistics : Type := mkStatistics {
  total_documents : Z;
  total_chunks : Z;
  total_size_bytes : Z
}.

(** [self.metadata], in the layout [_create_empty_metadata] gives it. *)
Record Metadata : Type := mkMetadata {
  version : string;
  created_at : string;
  documents : gmap string DocInfo;
  statistics : Statistics
}.

Definition _create_empty_metadata (now : string) : Metadata :=
  {| version := "1.0";
     created_at := now;
     documents := ∅;
     statistics := {| total_documents := 0;
                      total_chunks := 0;
                      total_size_bytes := 0 |} |}.

(** The dict a ledger in this layout is: what [json.dump] is given and
    what [_load_metadata] hands to [__init__]. *)
Definition doc_to_json (d : DocInfo) : json :=
  let base : gmap string json :=
    <["filename" := JStr (filename d)]>
    (<["chunk_count" := JInt (chunk_count d)]>
    (<["file_size" := JInt (file_size d)]>
    (<["ingested_at" := JStr (ingested_at d)]>
    (<["status" := JStr (status d)]> ∅)))) in
  JDict (match last_updated d with
         | Some t => <["last_updated" := JStr t]> base
         | None => base
         end).

Definition to_json (m : Metadata) : json :=
  JDict (<["version" := JStr (version m)]>
        (<["created_at" := JStr (created_at m)]>
        (<["documents" := JDict (doc_to_json <$> documents m)]>
        (<["statistics" :=
             JDict (<["total_documents" := JInt (total_documents (statistics m))]>
                   (<["total_chunks" := JInt (total_chunks (statistics m))]>
                   (<["total_size_bytes" := JInt (total_size_bytes (statistics m))]> ∅)))]>
         ∅)))).

(** [_load_metadata].  [file] is the backing file as the call finds it:
    [None] when [os.path.exists] is false, otherwise what [open] and
    reading give (the text, or the exception they raise).  [json_load]
    is the parser of the standard library.  The [try] block also holds
    the log line, whose argument [len(data.get('documents', {}))] is
    evaluated before [data] is returned. *)
Definition _load_metadata (json_load : string → result json)
    (file : option (result string)) (now : string) : result json :=
  match file with
  | Some contents =>
      try_except
        (text ← contents;
         data ← json_load text;
         docs ← py_get data "documents" (JDict ∅);
         _ ← py_len docs;
         Ok data)
        (λ e, Ok (to_json (_create_empty_metadata now)))
  | None => Ok (to_json (_create_empty_metadata now))
  end.

(** [register_document].  The entry is stored first, then the three
    statistics are updated: the first one is assigned [len] of the map,
    the other two are added to.  [_save_metadata] only writes the backing
    file and swallows its own exceptions, so it changes neither
    [self.metadata] nor the returned value. *)
Definition register_document (now : string) (m : Metadata)
    (doc_id fname : string) (chunks size_bytes : Z) : bool * Metadata :=
  let docs := <[doc_id := {| filename := fname;
                             chunk_count := chunks;
                             file_size := size_bytes;
                             ingested_at := now;
                             status := "indexed";
                             last_updated := None |}]> (documents m) in
  let st := statistics m in
  (true,
   {| version := version m;
      created_at := created_at m;
      documents := docs;
      statistics := {| total_documents := Z.of_nat (size docs);
                       total_chunks := total_chunks st + chunks;
                       total_size_bytes := total_size_bytes st + size_bytes |} |}).

(** [unregister_document]. *)
Definition unregister_document (m : Metadata) (doc_id : string)
    : bool * Metadata :=
  match documents m !! doc_id with
  | Some doc =>
      let st := statistics m in
      (true,
       {| version := version m;
          created_at := created_at m;
          documents := delete doc_id (documents m);
          statistics := {| total_documents := total_documents st - 1;
                           total_chunks := total_chunks st - chunk_count doc;
                           total_size_bytes := total_size_bytes st - file_size doc |} |})
  | None => (false, m)
  end.

Definition get_document_info (m : Metadata) (doc_id : string)
    : option DocInfo :=
  documents m !! doc_id.

Definition get_all_documents (m : Metadata) : gmap string DocInfo :=
  documents m.

Definition get_statistics (m : Metadata) : Statistics := statistics m.

Definition document_exists (m : Metadata) (doc_id : string) : bool :=
  bool_decide (is_Some (documents m !! doc_id)).

(** [update_document_status]: any status word is accepted. *)
Definition update_document_status (now : string) (m : Metadata)
    (doc_id new_status : string) : bool * Metadata :=
  match documents m !! doc_id with
  | Some doc =>
      (true,
       {| version := version m;
          created_at := created_at m;
          documents := <[doc_id := {| filename := filename doc;
                                      chunk_count := chunk_count doc;
                                      file_size := file_size doc;
                                      ingested_at := ingested_at doc;
                                      status := new_status;
                                      last_updated := Some now |}]> (documents m);
          statistics := statistics m |})
  | None => (false, m)
  end.

Definition clear_all_metadata (now : string) (m : Metadata) : Metadata :=
  _create_empty_metadata now.

(** The mutating calls a client can make, and the ledger after a
    sequence of them. *)
Inductive call : Type :=
  | Register (now doc_id fname : string) (chunks size_bytes : Z)
  | Unregister (doc_id : string)
  | UpdateStatus (now doc_id new_status : string)
  | ClearAll (now : string).

Definition step (m : Metadata) (c : call) : Metadata :=
  match c with
  | Register now doc_id fname chunks size_bytes =>
      snd (register_document now m doc_id fname chunks size_bytes)
  | Unregister doc_id => snd (unregister_document m doc_id)
  | UpdateStatus now doc_id new_status =>
      snd (update_document_status now m doc_id new_status)
  | ClearAll now => clear_all_metadata now m
  end.

Definition run (m : Metadata) (cs : list call) : Metadata :=
  fold_left step cs m.

(** The from-scratch recomputation of the statistics: the sum of a field
    over the entries that are registered now. *)
Definition sum_over (f : DocInfo → Z) (docs : gmap string DocInfo) : Z :=
  map_fold (λ _ d acc, f d + acc) 0 docs.

Definition recompute_statistics (m : Metadata) : Statistics :=
  {| total_documents := Z.of_nat (size (documents m));
     total_chunks := sum_over chunk_count (documents m);
     total_size_bytes := sum_over file_size (documents m) |}.

(** Every [Register] of the sequence uses an id that is not registered
    at the time of the call. *)
Fixpoint fresh_ids (m : Metadata) (cs : list call) : Prop :=
  match cs with
  | [] => True
  | c :: rest =>
      match c with
      | Register _ doc_id _ _ _ => documents m !! doc_id = None
      | _ => True
      end ∧ fresh_ids (step m c) rest
  end.

(** The first counter agrees with the map. *)
Definition count_synced (m : Metadata) : Prop :=
  total_documents (statistics m) = Z.of_nat (size (documents m)).

(** No entry holds a negative chunk count or file size, and the two
    running totals are at least the sums over the entries. *)
Definition entries_nonneg (m : Metadata) : Prop :=
  ∀ doc_id d, documents m !! doc_id = Some d →
    0 ≤ chunk_count d ∧ 0 ≤ file_size d.

Definition totals_cover_entries (m : Metadata) : Prop :=
  sum_over chunk_count (documents m) ≤ total_chunks (statistics m)
  ∧ sum_over file_size (documents m) ≤ total_size_bytes (statistics m).

(** Chunk counts and file sizes are lengths: the callers pass
    [len(chunks)] and [len(uploaded_file.getbuffer())]. *)
Definition call_nonneg (c : call) : Prop :=
  match c with
  | Register _ _ _ chunks size_bytes => 0 ≤ chunks ∧ 0 ≤ size_bytes
  | _ => True
  end.

(** [get_documents_by_filename].  The ids come in the order of the dict,
    which the map does not record: what the list contains is meaningful,
    the order of its elements is not. *)
Definition get_documents_by_filename (m : Metadata) (fname : string)
    : list string :=
  (filter (λ item, filename item.2 = fname) (map_to_list (documents m))).*1.

(** [get_ingestion_history]: the empty dict for an id that is not
    registered. *)
Definition get_ingestion_history (m : Metadata) (doc_id : string)
    : gmap string json :=
  match documents m !! doc_id with
  | None => ∅
  | Some doc =>
      <["doc_id" := JStr doc_id]>
      (<["filename" := JStr (filename doc)]>
      (<["chunk_count" := JInt (chunk_count doc)]>
      (<["file_size" := JInt (file_size doc)]>
      (<["ingested_at" := JStr (ingested_at doc)]>
      (<["status" := JStr (status doc)]>
      (<["last_updated" :=
           JStr (match last_updated doc with
                 | Some t => t
                 | None => ingested_at doc
                 end)]> ∅))))))
  end.

(** Two entries that differ at most in their status and in the time of
    their last update, and two ledgers that differ at most so. *)
Definition same_entry (d1 d2 : DocInfo) : Prop :=
  filename d1 = filename d2
  ∧ chunk_count d1 = chunk_count d2
  ∧ file_size d1 = file_size d2
  ∧ ingested_at d1 = ingested_at d2.

Definition same_but_status (m1 m2 : Metadata) : Prop :=
  version m1 = version m2
  ∧ created_at m1 = created_at m2
  ∧ statistics m1 = statistics m2
  ∧ size (documents m1) = size (documents m2)
  ∧ ∀ doc_id, option_Forall2 same_entry
                (documents m1 !! doc_id) (documents m2 !! doc_id).

Definition is_update_status (c : call) : bool :=
  match c with
  | UpdateStatus _ _ _ => true
  | _ => false
  end.

End MetadataManager.

(** ** [config/settings.py] *)

Definition CHUNK_SIZE : Z := 1000.
Definition CHUNK_OVERLAP : Z := 200.
Definition RETRIEVER_K : Z := 10.

(** ** [ingestor/processor.py] *)

Module DocumentProcessor.

(** What the processor calls outside the repository: the file system,
    the loader and the text splitter built in [__init__] from a chunk
    size and an overlap. *)
Record Env : Type := mkEnv {
  os_path_exists : string → bool;
  loader_load : string → result (list Document);
  split_documents : Z → Z → list Document → list Document
}.

(** The three assignments of the loop over the loaded documents. *)
Definition stamp (file_path doc_id fname : string) (doc : Document)
    : Document :=
  {| page_content := page_content doc;
     metadata := <["source_path" := file_path]>
                 (<["filename" := fname]>
                 (<["document_id" := doc_id]> (metadata doc))) |}.

(** [load_and_split_document]. *)
Definition load_and_split_document (env : Env)
    (file_path doc_id fname : string) : result (list Document) :=
  documents ←
    try_except
      (if negb (os_path_exists env file_path)
       then Raise (FileNotFoundError ("File not found: " +:+ file_path))
       else
         documents ← loader_load env file_path;
         match documents with
         | [] => Raise (ValueError ("No content loaded from " +:+ fname))
         | _ :: _ => Ok documents
         end)
      (λ e, Raise (CustomException e));
  let documents := map (stamp file_path doc_id fname) documents in
  let chunks := split_documents env CHUNK_SIZE CHUNK_OVERLAP documents in
  Ok chunks.

(** The characters [str.strip()] removes: those for which
    [str.isspace] holds. *)
Definition py_isspace (c : N) : bool :=
  ((9 <=? c) && (c <=? 13) || (28 <=? c) && (c <=? 32)
   || (c =? 133) || (c =? 160) || (c =? 5760)
   || (8192 <=? c) && (c <=? 8202)
   || (c =? 8232) || (c =? 8233) || (c =? 8239) || (c =? 8287)
   || (c =? 12288))%N.

Fixpoint lstrip (s : list N) : list N :=
  match s with
  | c :: rest => if py_isspace c then lstrip rest else s
  | [] => []
  end.

Definition rstrip (s : list N) : list N := rev (lstrip (rev s)).

Definition strip (s : list N) : list N := rstrip (lstrip s).

Definition required_fields : list string :=
  ["document_id"; "filename"; "source_path"].

(** The inner loop: is some required field missing from the metadata? *)
Fixpoint missing_field (fields : list string) (chunk : Document) : bool :=
  match fields with
  | [] => false
  | field :: rest =>
      if bool_decide (metadata chunk !! field = None) then true
      else missing_field rest chunk
  end.

(** [not chunk.page_content or len(chunk.page_content.strip()) == 0] *)
Definition empty_content (chunk : Document) : bool :=
  match page_content chunk with
  | [] => true
  | _ :: _ => (length (strip (page_content chunk)) =? 0)%nat
  end.

(** The outer loop of [validate_chunks]. *)
Fixpoint validate_loop (chunks : list Document) : bool :=
  match chunks with
  | [] => true
  | chunk :: rest =>
      if missing_field required_fields chunk then false
      else if empty_content chunk then false
      else validate_loop rest
  end.

Definition validate_chunks (chunks : list Document) : bool :=
  match chunks with
  | [] => false
  | _ :: _ => validate_loop chunks
  end.

(** A text is blank when it has no character other than white space. *)
Definition blank (text : list N) : Prop :=
  Forall (λ c, py_isspace c = true) text.

(** What [validate_chunks] asks of one chunk: the three identity fields
    are present in its metadata and its text is not blank. *)
Definition well_formed_chunk (chunk : Document) : Prop :=
  is_Some (metadata chunk !! "document_id")
  ∧ is_Some (metadata chunk !! "filename")
  ∧ is_Some (metadata chunk !! "source_path")
  ∧ ¬ blank (page_content chunk).

(** A chunk carries the stamps of [load_and_split_document]. *)
Definition stamped (file_path doc_id fname : string) (chunk : Document)
    : Prop :=
  metadata chunk !! "document_id" = Some doc_id
  ∧ metadata chunk !! "filename" = Some fname
  ∧ metadata chunk !! "source_path" = Some file_path.

(** The splitter gives every chunk the metadata of the document the
    chunk was cut from (LangChain copies the dict, and may add keys). *)
Definition carries_metadata (env : Env) : Prop :=
  ∀ size overlap docs chunk,
    chunk ∈ split_documents env size overlap docs →
    ∃ doc, doc ∈ docs ∧ metadata doc ⊆ metadata chunk.

(** An exception as [process_multiple_documents] can meet it: the
    [KeyError] of a descriptor that lacks a key, or what
    [load_and_split_document] raises. *)
Inductive raised : Type :=
  | KeyError (key : string)
  | Raised (e : exn).

Inductive outcome (A : Type) : Type :=
  | Returns (a : A)
  | Raises (e : raised).
Arguments Returns {A} a.
Arguments Raises {A} e.

#[global] Instance outcome_ret : MRet outcome := λ A a, Returns a.

#[global] Instance outcome_bind : MBind outcome := λ A B k r,
  match r with
  | Returns a => k a
  | Raises e => Raises e
  end.

(** [file_info[key]] *)
Definition getitem (file_info : gmap string string) (key : string)
    : outcome string :=
  match file_info !! key with
  | Some v => Returns v
  | None => Raises (KeyError key)
  end.

(** The items of [results["successful"]] and of [results["failed"]]. *)
Record Success : Type := mkSuccess {
  success_doc_id : string;
  success_filename : string;
  success_chunk_count : Z;
  success_chunks : list Document
}.

Record Failure : Type := mkFailure {
  failure_doc_id : string;
  failure_filename : string;
  failure_error : string
}.

Record Results : Type := mkResults {
  successful : list Success;
  failed : list Failure
}.

(** One turn of the loop of [process_multiple_documents].  [str] is
    [str(e)].  The keys of the descriptor are read in the order of the
    source: in the [try] block for the call and for the item appended,
    in the handler first for the log line, then for the item appended. *)
Definition process_file (env : Env) (str : raised → string)
    (results : Results) (file_info : gmap string string) : outcome Results :=
  match
    (file_path ← getitem file_info "file_path";
     doc_id ← getitem file_info "doc_id";
     fname ← getitem file_info "filename";
     chunks ← match load_and_split_document env file_path doc_id fname with
              | Ok chunks => Returns chunks
              | Raise e => Raises (Raised e)
              end;
     item_doc_id ← getitem file_info "doc_id";
     item_filename ← getitem file_info "filename";
     Returns {| success_doc_id := item_doc_id;
                success_filename := item_filename;
                success_chunk_count := Z.of_nat (length chunks);
                success_chunks := chunks |})
  with
  | Returns item =>
      Returns {| successful := successful results ++ [item];
                 failed := failed results |}
  | Raises e =>
      _ ← getitem file_info "filename";
      item_doc_id ← getitem file_info "doc_id";
      item_filename ← getitem file_info "filename";
      Returns {| successful := successful results;
                 failed := failed results
                           ++ [ {| failure_doc_id := item_doc_id;
                                   failure_filename := item_filename;
                                   failure_error := str e |} ] |}
  end.

Fixpoint process_loop (env : Env) (str : raised → string)
    (results : Results) (file_info_list : list (gmap string string))
    : outcome Results :=
  match file_info_list with
  | [] => Returns results
  | file_info :: rest =>
      results ← process_file env str results file_info;
      process_loop env str results rest
  end.

(** [process_multiple_documents] *)
Definition process_multiple_documents (env : Env) (str : raised → string)
    (file_info_list : list (gmap string string)) : outcome Results :=
  process_loop env str {| successful := []; failed := [] |} file_info_list.

(** A descriptor names its document: it has the keys the handler reads. *)
Definition names_document (file_info : gmap string string) : Prop :=
  is_Some (file_info !! "doc_id") ∧ is_Some (file_info !! "filename").

(** An item of the successful list comes from a descriptor of [infos]
    whose document was loaded and split into the chunks of the item. *)
Definition success_of (env : Env) (infos : list (gmap string string))
    (item : Success) : Prop :=
  ∃ file_info file_path,
    file_info ∈ infos
    ∧ file_info !! "file_path" = Some file_path
    ∧ file_info !! "doc_id" = Some (success_doc_id item)
    ∧ file_info !! "filename" = Some (success_filename item)
    ∧ load_and_split_document env file_path
        (success_doc_id item) (success_filename item)
      = Ok (success_chunks item)
    ∧ success_chunk_count item = Z.of_nat (length (success_chunks item)).

(** An item of the failed list comes from a descriptor of [infos] that
    has no file path or whose document could not be loaded, and holds
    the text of the exception. *)
Definition failure_of (env : Env) (str : raised → string)
    (infos : list (gmap string string)) (item : Failure) : Prop :=
  ∃ file_info,
    file_info ∈ infos
    ∧ file_info !! "doc_id" = Some (failure_doc_id item)
    ∧ file_info !! "filename" = Some (failure_filename item)
    ∧ ((file_info !! "file_path" = None
        ∧ failure_error item = str (KeyError "file_path"))
       ∨ ∃ file_path e,
           file_info !! "file_path" = Some file_path
           ∧ load_and_split_document env file_path
               (failure_doc_id item) (failure_filename item) = Raise e
           ∧ failure_error item = str (Raised e)).

End DocumentProcessor.

(** ** The client calls that manage the collection *)

Inductive Distance : Type :=
  | COSINE
  | EUCLID
  | DOT
  | MANHATTAN.

(** The calls of the Qdrant client that create, drop and list a
    collection.  A stored point is listed by its payload, the document it
    was made from. *)
Record QdrantAdmin (Store : Type) : Type := mkQdrantAdmin {
  (** [client.create_collection(collection_name, vectors_config=
      VectorParams(size=..., distance=...))] *)
  create_collection : Z → Distance → Store → result () * Store;
  (** [client.delete_collection(collection_name)] *)
  delete_collection : Store → result () * Store;
  (** the points of [client.scroll(collection_name, limit=...,
      with_payload=True, with_vectors=False)] *)
  scroll : Z → Store → result (list Document)
}.
Arguments create_collection {Store} _ _ _ _.
Arguments delete_collection {Store} _ _.
Arguments scroll {Store} _ _ _.

(** The ERROR records of the methods that manage the collection. *)
Inductive admin_event : Type :=
  | ErrCreateFailed (e : exn)
  | ErrClearFailed (e : exn)
  | ErrStatsFailed (e : exn).

(** A method that manages the collection, with its own records. *)
Definition admin_prog (Store A : Type) : Type :=
  Store → result A * Store * list admin_event.

#[global] Instance admin_prog_ret {Store} : MRet (admin_prog Store) :=
  λ A a s, (Ok a, s, []).

#[global] Instance admin_prog_bind {Store} : MBind (admin_prog Store) :=
  λ A B k p s,
    match p s with
    | (Ok a, s1, l1) => let '(r, s2, l2) := k a s1 in (r, s2, l1 ++ l2)
    | (Raise e, s1, l1) => (Raise e, s1, l1)
    end.

Definition admin_raise {Store A} (e : exn) : admin_prog Store A :=
  λ s, (Raise e, s, []).

Definition admin_log {Store} (ev : admin_event) : admin_prog Store () :=
  λ s, (Ok (), s, [ev]).

Definition admin_read {Store A} (f : Store → result A) : admin_prog Store A :=
  λ s, (f s, s, []).

Definition admin_update {Store A} (f : Store → result A * Store)
    : admin_prog Store A :=
  λ s, (f s, []).

Definition admin_try {Store A} (body : admin_prog Store A)
    (handler : exn → admin_prog Store A) : admin_prog Store A :=
  λ s,
    match body s with
    | (Raise e, s1, l1) => let '(r, s2, l2) := handler e s1 in (r, s2, l1 ++ l2)
    | done => done
    end.

(** ** [core/vector_store.py] *)

Module VectorStoreManager.
Section WithCollection.
Context {Store : Type} (lib : Qdrant Store).

(** [get_vectorstore] *)
Definition get_vectorstore : prog Store () :=
  try_prog
    (read (new_vectorstore lib))
    (λ e, _ ← log (ErrVectorstoreFailed e); raise (CustomException e)).

(** The exception [index_documents] raises when the point count did not
    move, before the [except] clause wraps it. *)
Definition no_points : exn :=
  Exception "Documents were not indexed - no points added to collection!".

(** [index_documents] *)
Definition index_documents (documents : list Document)
    : prog Store (list string) :=
  try_prog
    (match documents with
     | [] => _ ← log WarnNoDocuments; mret []
     | _ :: _ =>
         points_before ← read (get_collection lib);
         _ ← get_vectorstore;
         ids ← update (add_documents lib documents);
         points_after ← read (get_collection lib);
         let points_added := points_after - points_before in
         _ ← (if points_added =? 0
              then _ ← log ErrNoPointsAdded;
                   raise (Exception
                     "Documents were not indexed - no points added to collection!")
              else mret ());
         _ ← (if negb (points_added =? Z.of_nat (length documents))
              then log (WarnPointsMismatch (length documents) points_added)
              else mret ());
         mret ids
     end)
    (λ e, _ ← log (ErrIndexingFailed e); raise (CustomException e)).

(** What [get_collection_stats] returns: the dict with the point count
    and the sample, or the dict with the error. *)
Inductive CollectionStats : Type :=
  | Stats (points_count : Z) (sample_metadata : list Document)
  | StatsError (error : string).

Section Managing.
(** [admin] is the client, [vector_size] is [self.vector_size] and
    [str] is [str(e)]. *)
Context (admin : QdrantAdmin Store) (vector_size : Z) (str : exn → string).

(** [_ensure_collection_exists]: whatever [get_collection] raises is
    taken to mean that the collection does not exist. *)
Definition _ensure_collection_exists : admin_prog Store () :=
  admin_try
    (_ ← admin_read (get_collection lib); mret ())
    (λ _,
       admin_try
         (admin_update (create_collection admin vector_size COSINE))
         (λ create_error,
            _ ← admin_log (ErrCreateFailed create_error);
            admin_raise (CustomException create_error))).

(** [clear_collection] *)
Definition clear_collection : admin_prog Store () :=
  admin_try
    (_ ← admin_update (delete_collection admin);
     _ensure_collection_exists)
    (λ e, _ ← admin_log (ErrClearFailed e); admin_raise (CustomException e)).

(** [get_collection_stats] *)
Definition get_collection_stats : admin_prog Store CollectionStats :=
  admin_try
    (points_count ← admin_read (get_collection lib);
     sample_points ← admin_read (scroll admin 5);
     mret (Stats points_count
             (match sample_points with
              | [] => []
              | _ :: _ => sample_points
              end)))
    (λ e, _ ← admin_log (ErrStatsFailed e); mret (StatsError (str e))).

End Managing.
End WithCollection.
End VectorStoreManager.

(** ** [core/retriever.py] *)

Module DocumentRetriever.
Section WithCollection.
Context {Store : Type} (lib : Qdrant Store).

(** [get_unfiltered_retriever] *)
Definition get_unfiltered_retriever (k : Z) : prog Store Retriever :=
  _ ← VectorStoreManager.get_vectorstore lib;
  mret {| search_type := "similarity";
          search_k := k;
          search_filter := None |}.

(** [get_filtered_retriever] *)
Definition get_filtered_retriever (doc_ids : list string) (k : Z)
    : prog Store Retriever :=
  match doc_ids with
  | [] => _ ← log WarnNoDocIds; get_unfiltered_retriever k
  | _ :: _ =>
      _ ← VectorStoreManager.get_vectorstore lib;
      let qdrant_filter :=
        {| must := [ {| key := "metadata.document_id";
                        match_cond := MatchAny doc_ids |} ] |} in
      mret {| search_type := "similarity";
              search_k := k;
              search_filter := Some qdrant_filter |}
  end.

(** [retrieve_documents]: the [except] clause logs and re-raises the
    exception as it is. *)
Definition retrieve_documents (query : string) (doc_ids : list string)
    (k : Z) : prog Store (list Document) :=
  retriever ← match doc_ids with
              | _ :: _ => get_filtered_retriever doc_ids k
              | [] => get_unfiltered_retriever k
              end;
  try_prog
    (read (invoke lib retriever query))
    (λ e, _ ← log (ErrRetrievalFailed e); raise e).

End WithCollection.
End DocumentRetriever.

(** ** [ui/session_manager.py] *)

Module SessionManager.
Section WithValues.
(** The values kept in the session: the RAG manager, the vector store
    manager, and the results of a query and of an evaluation. *)
Context {RagManager VSM QueryResults EvaluationResults : Type}.

(** [st.session_state], restricted to the six keys of the class.  A key
    that is absent is [None]; the value [None] of Python under a key
    that is present is [Some None].  The INFO, WARNING and ERROR records
    of the class are not modelled. *)
Record SessionState : Type := mkSessionState {
  rag_manager : option (option RagManager);
  vector_store_manager : option (option VSM);
  ingested_docs : option (gmap string string);
  processed_files : option (gset string);
  query_results : option (option QueryResults);
  evaluation_results : option (option EvaluationResults)
}.

(** [initialize].  [new_vsm] is what [VectorStoreManager()] does at the
    time of the call: the manager it returns or the exception it
    raises.  Each key is assigned only when it is absent. *)
Definition initialize (new_vsm : result VSM) (st : SessionState)
    : SessionState :=
  {| rag_manager :=
       match rag_manager st with
       | None => Some None
       | Some v => Some v
       end;
     vector_store_manager :=
       match vector_store_manager st with
       | None => Some (match new_vsm with
                       | Ok manager => Some manager
                       | Raise _ => None
                       end)
       | Some v => Some v
       end;
     ingested_docs :=
       match ingested_docs st with
       | None => Some ∅
       | Some v => Some v
       end;
     processed_files :=
       match processed_files st with
       | None => Some ∅
       | Some v => Some v
       end;
     query_results :=
       match query_results st with
       | None => Some None
       | Some v => Some v
       end;
     evaluation_results :=
       match evaluation_results st with
       | None => Some None
       | Some v => Some v
       end |}.

(** Reading [st.session_state.<key>] of an absent key. *)
Definition no_attribute {A} (name : string) : result A :=
  Raise (AttributeError ("st.session_state has no attribute " +:+ name)).

(** [get_vector_store_manager] *)
Definition get_vector_store_manager (new_vsm : result VSM)
    (st : SessionState) : result (option VSM) * SessionState :=
  match vector_store_manager st with
  | None => (no_attribute "vector_store_manager", st)
  | Some (Some manager) => (Ok (Some manager), st)
  | Some None =>
      match new_vsm with
      | Ok manager =>
          (Ok (Some manager),
           {| rag_manager := rag_manager st;
              vector_store_manager := Some (Some manager);
              ingested_docs := ingested_docs st;
              processed_files := processed_files st;
              query_results := query_results st;
              evaluation_results := evaluation_results st |})
      | Raise _ => (Ok None, st)
      end
  end.

(** [add_ingested_document] *)
Definition add_ingested_document (doc_id fname : string)
    (st : SessionState) : result () * SessionState :=
  match ingested_docs st with
  | None => (no_attribute "ingested_docs", st)
  | Some docs =>
      (Ok (),
       {| rag_manager := rag_manager st;
          vector_store_manager := vector_store_manager st;
          ingested_docs := Some (<[doc_id := fname]> docs);
          processed_files := processed_files st;
          query_results := query_results st;
          evaluation_results := evaluation_results st |})
  end.

(** [remove_ingested_document] *)
Definition remove_ingested_document (doc_id : string)
    (st : SessionState) : result () * SessionState :=
  match ingested_docs st with
  | None => (no_attribute "ingested_docs", st)
  | Some docs =>
      match docs !! doc_id with
      | Some _ =>
          (Ok (),
           {| rag_manager := rag_manager st;
              vector_store_manager := vector_store_manager st;
              ingested_docs := Some (delete doc_id docs);
              processed_files := processed_files st;
              query_results := query_results st;
              evaluation_results := evaluation_results st |})
      | None => (Ok (), st)
      end
  end.

(** [get_ingested_documents] *)
Definition get_ingested_documents (st : SessionState)
    : result (gmap string string) :=
  match ingested_docs st with
  | None => no_attribute "ingested_docs"
  | Some docs => Ok docs
  end.

(** [add_processed_file] *)
Definition add_processed_file (fname : string) (st : SessionState)
    : result () * SessionState :=
  match processed_files st with
  | None => (no_attribute "processed_files", st)
  | Some files =>
      (Ok (),
       {| rag_manager := rag_manager st;
          vector_store_manager := vector_store_manager st;
          ingested_docs := ingested_docs st;
          processed_files := Some ({[fname]} ∪ files);
          query_results := query_results st;
          evaluation_results := evaluation_results st |})
  end.

(** [is_file_processed] *)
Definition is_file_processed (fname : string) (st : SessionState)
    : result bool :=
  match processed_files st with
  | None => no_attribute "processed_files"
  | Some files => Ok (bool_decide (fname ∈ files))
  end.

(** [clear_all]: five keys are assigned, the vector store manager is
    not. *)
Definition clear_all (st : SessionState) : SessionState :=
  {| rag_manager := Some None;
     vector_store_manager := vector_store_manager st;
     ingested_docs := Some ∅;
     processed_files := Some ∅;
     query_results := Some None;
     evaluation_results := Some None |}.

(** Every key of the class is present. *)
Definition initialized (st : SessionState) : Prop :=
  is_Some (rag_manager st)
  ∧ is_Some (vector_store_manager st)
  ∧ is_Some (ingested_docs st)
  ∧ is_Some (processed_files st)
  ∧ is_Some (query_results st)
  ∧ is_Some (evaluation_results st).

End WithValues.
Arguments SessionState : clear implicits.
End SessionManager.

(** ** [ui/components/document_uploader.py] *)

Definition TEMP_DIR : string := "temp_files".

(** [a.endswith("/")] *)
Fixpoint ends_with_slash (a : string) : bool :=
  match a with
  | EmptyString => false
  | String c EmptyString => String.eqb (String c EmptyString) "/"
  | String _ rest => ends_with_slash rest
  end.

(** [os.path.join(a, b)] on a POSIX system: an absolute [b] replaces
    [a], otherwise the two are joined by one slash. *)
Definition path_join (a b : string) : string :=
  if String.prefix "/" b then b
  else if String.eqb a "" then b
  else if ends_with_slash a then a +:+ b
  else a +:+ "/" +:+ b.

Module DocumentUploader.
Section WithCollection.
Context {Store RagManager QueryResults EvaluationResults : Type}.

(** The session of the application: its vector store manager is the
    client of the collection. *)
Local Abbreviation Session :=
  (SessionManager.SessionState RagManager (Qdrant Store)
     QueryResults EvaluationResults).

(** One uploaded file as a turn of the loop of [handle_ingestion] meets
    it: its name, [len(uploaded_file.getbuffer())], the id drawn for it
    with [uuid.uuid4()], the clock at its registration, what writing it
    into the temporary directory does, the file system and the libraries
    as the processor finds them afterwards, and what the removal of the
    temporary file at the end does. *)
Record Upload : Type := mkUpload {
  upload_name : string;
  upload_size : Z;
  upload_doc_id : string;
  upload_now : string;
  upload_saved : result ();
  upload_env : DocumentProcessor.Env;
  upload_removed : result ()
}.

(** What [handle_ingestion] works on: the collection, the ledger of the
    [MetadataManager] it builds, and the session. *)
Record World : Type := mkWorld {
  collection : Store;
  ledger : MetadataManager.Metadata;
  session : Session
}.

(** What the page shows: [st.success], [st.error] in the handler of the
    loop, and [st.error] for a missing vector store. *)
Inductive ui_event : Type :=
  | ShowIndexed (fname doc_id : string)
  | ShowFailed (fname : string) (e : exn)
  | ShowNoVectorStore.

(** One turn of the loop: the [try] block up to the first exception, and
    the handler.  It returns the world it leaves, what it showed and the
    records [index_documents] logged. *)
Definition ingest_upload (lib : Qdrant Store) (w : World) (u : Upload)
    : World * list ui_event * list log_event :=
  let fname := upload_name u in
  let doc_id := upload_doc_id u in
  let file_path := path_join TEMP_DIR fname in
  match upload_saved u with
  | Raise e => (w, [ShowFailed fname e], [])
  | Ok _ =>
  match DocumentProcessor.load_and_split_document
          (upload_env u) file_path doc_id fname with
  | Raise e => (w, [ShowFailed fname e], [])
  | Ok chunks =>
  match VectorStoreManager.index_documents lib chunks (collection w) with
  | (Raise e, s, logged) =>
      ({| collection := s; ledger := ledger w; session := session w |},
       [ShowFailed fname e], logged)
  | (Ok _, s, logged) =>
  let m := (MetadataManager.register_document (upload_now u) (ledger w)
              doc_id fname (Z.of_nat (length chunks)) (upload_size u)).2 in
  match SessionManager.add_ingested_document doc_id fname (session w) with
  | (Raise e, st) =>
      ({| collection := s; ledger := m; session := st |},
       [ShowFailed fname e], logged)
  | (Ok _, st) =>
  match SessionManager.add_processed_file fname st with
  | (Raise e, st) =>
      ({| collection := s; ledger := m; session := st |},
       [ShowFailed fname e], logged)
  | (Ok _, st) =>
  match upload_removed u with
  | Raise e =>
      ({| collection := s; ledger := m; session := st |},
       [ShowIndexed fname doc_id; ShowFailed fname e], logged)
  | Ok _ =>
      ({| collection := s; ledger := m; session := st |},
       [ShowIndexed fname doc_id], logged)
  end end end end end end.

(** The loop of [handle_ingestion]. *)
Fixpoint ingest_uploads (lib : Qdrant Store) (w : World)
    (uploads : list Upload) : World * list ui_event * list log_event :=
  match uploads with
  | [] => (w, [], [])
  | u :: rest =>
      let '(w1, shown1, logged1) := ingest_upload lib w u in
      let '(w2, shown2, logged2) := ingest_uploads lib w1 rest in
      (w2, shown1 ++ shown2, logged1 ++ logged2)
  end.

(** [handle_ingestion].  [new_vsm] is what [VectorStoreManager()] does if
    it is called; the ledger of [w] is the one [MetadataManager()] has
    loaded. *)
Definition handle_ingestion (new_vsm : result (Qdrant Store)) (w : World)
    (uploads : list Upload)
    : result (World * list ui_event * list log_event) :=
  match SessionManager.get_vector_store_manager new_vsm (session w) with
  | (Raise e, _) => Raise e
  | (Ok None, st) =>
      Ok ({| collection := collection w; ledger := ledger w; session := st |},
          [ShowNoVectorStore], [])
  | (Ok (Some lib), st) =>
      Ok (ingest_uploads lib
            {| collection := collection w; ledger := ledger w; session := st |}
            uploads)
  end.

(** The call of the ledger a turn of the loop makes when it gets as far
    as the registration. *)
Definition registration (u : Upload) (chunks : list Document)
    : MetadataManager.call :=
  MetadataManager.Register (upload_now u) (upload_doc_id u) (upload_name u)
    (Z.of_nat (length chunks)) (upload_size u).

End WithCollection.
End DocumentUploader.

(** ** Concrete libraries for the examples *)

Module Examples.

(** An in-memory collection (the default [QDRANT_LOCATION] is
    [":memory:"]): the stored documents, oldest first.  [keep] is what
    the collection retains of a batch it is given: everything for a
    sound store, less for a faulty one.  A search returns the first
    [k] stored documents that pass the filter. *)
Definition memory (keep : list Document → list Document)
    : Qdrant (list Document) :=
  {| get_collection := λ s, Ok (Z.of_nat (length s));
     new_vectorstore := λ _, Ok ();
     add_documents := λ docs s,
       (Ok (replicate (length docs) "point-id"), s ++ keep docs);
     invoke := λ r _ s,
       Ok (take (Z.to_nat (search_k r))
             (List.filter
                (λ d, match search_filter r with
                      | Some f => filter_holds f d
                      | None => true
                      end) s)) |}.

Definition chunk (text : list N) (doc_id fname path : string) : Document :=
  {| page_content := text;
     metadata := <["source_path" := path]>
                 (<["filename" := fname]>
                 (<["document_id" := doc_id]> ∅)) |}.

(** "cpu" *)
Definition cpu : list N := [99; 112; 117]%N.

(** A splitter on texts shorter than the chunk size: a text that is
    blank gives no chunk, any other text gives one chunk with the
    metadata of its document. *)
Definition short_splitter (size overlap : Z) (docs : list Document)
    : list Document :=
  List.filter (λ d, negb (DocumentProcessor.empty_content d)) docs.

(** A file system with the single file [path], which the loader reads
    as one document holding [text]. *)
Definition one_file (path : string) (text : list N) : DocumentProcessor.Env :=
  {| DocumentProcessor.os_path_exists := λ p, bool_decide (p = path);
     DocumentProcessor.loader_load := λ p,
       Ok [ {| page_content := text; metadata := {["source" := p]} |} ];
     DocumentProcessor.split_documents := short_splitter |}.

(** A JSON parser that knows two texts. *)
Definition toy_json_load (text : string) : result json :=
  if bool_decide (text = "{}") then Ok (JDict ∅)
  else if bool_decide (text = "[]") then Ok (JList [])
  else Raise (LibraryError "JSONDecodeError").

(** A descriptor of [process_multiple_documents]. *)
Definition descriptor (path doc_id fname : string) : gmap string string :=
  <["file_path" := path]> (<["doc_id" := doc_id]> {["filename" := fname]}).

(** A rendering of exceptions by their kind. *)
Definition kind_of (e : DocumentProcessor.raised) : string :=
  match e with
  | DocumentProcessor.KeyError _ => "KeyError"
  | DocumentProcessor.Raised _ => "CustomException"
  end.

(** An upload that is saved and removed without error, read as one
    document holding [text], and the world of a fresh session on an
    empty in-memory collection. *)
Definition upload (fname doc_id : string) (text : list N) (size : Z)
    : DocumentUploader.Upload :=
  {| DocumentUploader.upload_name := fname;
     DocumentUploader.upload_size := size;
     DocumentUploader.upload_doc_id := doc_id;
     DocumentUploader.upload_now := "t1";
     DocumentUploader.upload_saved := Ok ();
     DocumentUploader.upload_env := one_file (path_join TEMP_DIR fname) text;
     DocumentUploader.upload_removed := Ok () |}.

Definition fresh_world : @DocumentUploader.World (list Document) () () () :=
  {| DocumentUploader.collection := [];
     DocumentUploader.ledger := MetadataManager._create_empty_metadata "t0";
     DocumentUploader.session :=
       SessionManager.initialize (Ok (memory (λ docs, docs)))
         (SessionManager.mkSessionState None None None None None None) |}.

End Examples.

(** * Properties *)

Section MetadataLedger.
Import MetadataManager.

Lemma sum_over_empty f : sum_over f ∅ = 0.
Proof. apply map_fold_empty. Qed.

Lemma sum_over_insert_fresh f (docs : gmap string DocInfo) k d :
  docs !! k = None → sum_over f (<[k := d]> docs) = f d + sum_over f docs.
Proof.
  intros Hk. unfold sum_over.
  rewrite map_fold_insert_L; [done | intros; lia | done].
Qed.

Lemma sum_over_delete f (docs : gmap string DocInfo) k d :
  docs !! k = Some d → sum_over f docs = f d + sum_over f (delete k docs).
Proof.
  intros Hk.
  rewrite <- (sum_over_insert_fresh f (delete k docs) k d)
    by apply lookup_delete_eq.
  by rewrite insert_delete_eq, insert_id.
Qed.

Lemma sum_over_insert f (docs : gmap string DocInfo) k d :
  sum_over f (<[k := d]> docs) = f d + sum_over f (delete k docs).
Proof.
  rewrite <- insert_delete_eq.
  apply sum_over_insert_fresh, lookup_delete_eq.
Qed.

Lemma sum_over_nonneg f (docs : gmap string DocInfo) :
  (∀ k d, docs !! k = Some d → 0 ≤ f d) → 0 ≤ sum_over f docs.
Proof.
  induction docs as [|k d docs Hk IH] using map_ind; intros Hall.
  - by rewrite sum_over_empty.
  - rewrite sum_over_insert_fresh by done.
    assert (0 ≤ f d) by (apply (Hall k); by rewrite lookup_insert_eq).
    assert (0 ≤ sum_over f docs); [|lia].
    apply IH. intros j e Hj. apply (Hall j).
    rewrite lookup_insert_ne; [done | congruence].
Qed.

Lemma run_cons m c cs : run m (c :: cs) = run (step m c) cs.
Proof. reflexivity. Qed.

Lemma run_invariant (P : Metadata → Prop) (Q : call → Prop) :
  (∀ m c, Q c → P m → P (step m c)) →
  ∀ cs m, Forall Q cs → P m → P (run m cs).
Proof.
  intros Hstep cs. induction cs as [|c cs IH]; intros m Hcs Hm; [done|].
  inversion Hcs; subst. rewrite run_cons. apply IH; auto.
Qed.

(** *** The document counter *)

Lemma register_count_synced now m doc_id fname chunks size_bytes :
  count_synced (snd (register_document now m doc_id fname chunks size_bytes)).
Proof. reflexivity. Qed.

Lemma unregister_count_synced m doc_id :
  count_synced m → count_synced (snd (unregister_document m doc_id)).
Proof.
  unfold count_synced, unregister_document. intros Hm.
  destruct (documents m !! doc_id) as [d|] eqn:Hd; simpl; [|done].
  rewrite map_size_delete, Hd, Hm.
  assert (size (documents m) ≠ 0%nat); [|lia].
  intros Hz. apply map_size_empty_inv in Hz. by rewrite Hz in Hd.
Qed.

Lemma update_status_size now m doc_id new_status :
  size (documents (snd (update_document_status now m doc_id new_status)))
  = size (documents m).
Proof.
  unfold update_document_status.
  destruct (documents m !! doc_id) as [d|] eqn:Hd; simpl; [|done].
  by rewrite map_size_insert, Hd.
Qed.

Lemma update_status_statistics now m doc_id new_status :
  statistics (snd (update_document_status now m doc_id new_status))
  = statistics m.
Proof.
  unfold update_document_status. by destruct (documents m !! doc_id).
Qed.

Lemma step_count_synced m c : count_synced m → count_synced (step m c).
Proof.
  destruct c; simpl; intros Hm.
  - apply register_count_synced.
  - by apply unregister_count_synced.
  - unfold count_synced.
    by rewrite update_status_statistics, update_status_size.
  - reflexivity.
Qed.

Lemma run_count_synced now cs :
  count_synced (run (_create_empty_metadata now) cs).
Proof.
  apply (run_invariant count_synced (λ _, True)).
  - intros m c _. apply step_count_synced.
  - by apply Forall_true.
  - reflexivity.
Qed.

(** *** The two running totals *)

Lemma sum_over_delete_le f (docs : gmap string DocInfo) k :
  (∀ j d, docs !! j = Some d → 0 ≤ f d) →
  sum_over f (delete k docs) ≤ sum_over f docs.
Proof.
  intros Hall. destruct (docs !! k) as [d|] eqn:Hk.
  - rewrite (sum_over_delete f docs k d Hk). specialize (Hall k d Hk). lia.
  - by rewrite delete_id.
Qed.

Lemma step_entries_nonneg m c :
  call_nonneg c → entries_nonneg m → entries_nonneg (step m c).
Proof.
  unfold entries_nonneg.
  destruct c as [now k fname chunks size_bytes|k|now k st|now];
    simpl; intros Hc Hm j d.
  - rewrite lookup_insert. case_decide; [|by apply Hm].
    intros [= <-]. done.
  - unfold unregister_document.
    destruct (documents m !! k) eqn:Hk; simpl; [|by apply Hm].
    rewrite lookup_delete. case_decide; [done | by apply Hm].
  - unfold update_document_status.
    destruct (documents m !! k) as [e|] eqn:Hk; simpl; [|by apply Hm].
    rewrite lookup_insert. case_decide; [|by apply Hm].
    intros [= <-]. simpl. by apply (Hm k).
  - by rewrite lookup_empty.
Qed.

Lemma step_totals_cover m c :
  call_nonneg c → entries_nonneg m →
  totals_cover_entries m → totals_cover_entries (step m c).
Proof.
  unfold totals_cover_entries.
  destruct c as [now k fname chunks size_bytes|k|now k st|now];
    simpl; intros Hc Hnn [Hch Hsz].
  - rewrite !sum_over_insert. simpl.
    pose proof (sum_over_delete_le chunk_count (documents m) k) as H1.
    pose proof (sum_over_delete_le file_size (documents m) k) as H2.
    split.
    + assert (sum_over chunk_count (delete k (documents m))
              ≤ sum_over chunk_count (documents m)); [|lia].
      apply H1. intros j d Hj. by apply (Hnn j).
    + assert (sum_over file_size (delete k (documents m))
              ≤ sum_over file_size (documents m)); [|lia].
      apply H2. intros j d Hj. by apply (Hnn j).
  - unfold unregister_document.
    destruct (documents m !! k) as [d|] eqn:Hk; simpl; [|done].
    rewrite (sum_over_delete chunk_count _ k d Hk) in Hch.
    rewrite (sum_over_delete file_size _ k d Hk) in Hsz. lia.
  - unfold update_document_status.
    destruct (documents m !! k) as [d|] eqn:Hk; simpl; [|done].
    rewrite !sum_over_insert. simpl.
    rewrite (sum_over_delete chunk_count _ k d Hk) in Hch.
    rewrite (sum_over_delete file_size _ k d Hk) in Hsz. lia.
  - rewrite !sum_over_empty. lia.
Qed.

Lemma run_totals_cover now cs :
  Forall call_nonneg cs →
  let m := run (_create_empty_metadata now) cs in
  entries_nonneg m ∧ totals_cover_entries m.
Proof.
  intros Hcs.
  apply (run_invariant (λ m, entries_nonneg m ∧ totals_cover_entries m)
           call_nonneg); [|done|].
  - intros m c Hc [Hnn Hcov]. split.
    + by apply step_entries_nonneg.
    + by apply step_totals_cover.
  - split.
    + intros k d. simpl. by rewrite lookup_empty.
    + unfold totals_cover_entries. simpl. rewrite !sum_over_empty. lia.
Qed.

(** When no [Register] overwrites an entry, the statistics are the
    from-scratch recomputation. *)
Lemma step_statistics_recomputed m c :
  match c with
  | Register _ doc_id _ _ _ => documents m !! doc_id = None
  | _ => True
  end →
  statistics m = recompute_statistics m →
  statistics (step m c) = recompute_statistics (step m c).
Proof.
  unfold recompute_statistics.
  destruct c as [now k fname chunks size_bytes|k|now k st|now];
    simpl; intros Hc Hm.
  - rewrite !sum_over_insert_fresh by done. rewrite Hm. simpl.
    f_equal; lia.
  - unfold unregister_document.
    destruct (documents m !! k) as [d|] eqn:Hk; simpl; [|done].
    pose proof (unregister_count_synced m k) as Hcnt.
    unfold count_synced, unregister_document in Hcnt.
    rewrite Hk in Hcnt. simpl in Hcnt. rewrite <- Hcnt by (by rewrite Hm).
    rewrite Hm. simpl.
    rewrite (sum_over_delete chunk_count _ k d Hk).
    rewrite (sum_over_delete file_size _ k d Hk).
    f_equal; lia.
  - unfold update_document_status.
    destruct (documents m !! k) as [d|] eqn:Hk; simpl; [|done].
    rewrite !sum_over_insert, map_size_insert, Hk. simpl.
    rewrite Hm. simpl.
    rewrite (sum_over_delete chunk_count _ k d Hk).
    by rewrite (sum_over_delete file_size _ k d Hk).
  - by rewrite !sum_over_empty.
Qed.

Lemma run_statistics_recomputed cs : ∀ m,
  fresh_ids m cs →
  statistics m = recompute_statistics m →
  statistics (run m cs) = recompute_statistics (run m cs).
Proof.
  induction cs as [|c cs IH]; intros m Hfresh Hm; [done|].
  destruct Hfresh as [Hc Hrest]. rewrite run_cons.
  apply IH; [done|]. by apply step_statistics_recomputed.
Qed.

(** *** The claims about the ledger *)

(** C1 (as amended).  [register_document] returns true and stores the
    entry, with status indexed, under the document id, leaving the
    other entries alone; afterwards [total_documents] is the number of
    entries in the map.  For an id that was not registered the map has
    one entry more, so a counter that agreed with the map goes up by
    one, and [total_chunks] and [total_size_bytes] go up by exactly the
    chunk count and the file size.  For an id that was registered the
    map keeps its size, so the counter is not incremented. *)
Theorem register_document_counters now m doc_id fname chunks size_bytes :
  let r := register_document now m doc_id fname chunks size_bytes in
  let m' := snd r in
  fst r = true
  ∧ documents m' !! doc_id
    = Some (mkDocInfo fname chunks size_bytes now "indexed" None)
  ∧ (∀ j, j ≠ doc_id → documents m' !! j = documents m !! j)
  ∧ total_documents (statistics m') = Z.of_nat (size (documents m'))
  ∧ (documents m !! doc_id = None →
       size (documents m') = S (size (documents m))
       ∧ (count_synced m →
            total_documents (statistics m')
            = total_documents (statistics m) + 1)
       ∧ total_chunks (statistics m')
         = total_chunks (statistics m) + chunks
       ∧ total_size_bytes (statistics m')
         = total_size_bytes (statistics m) + size_bytes)
  ∧ (is_Some (documents m !! doc_id) →
       size (documents m') = size (documents m)).
Proof.
  simpl. split_and!.
  - done.
  - by rewrite lookup_insert_eq.
  - intros j Hj. by rewrite lookup_insert_ne.
  - done.
  - intros Hnew. rewrite map_size_insert, Hnew. simpl.
    split_and!; [done | | done | done].
    unfold count_synced. intros ->. lia.
  - intros [d Hd]. by rewrite map_size_insert, Hd.
Qed.

(** The amended C1 at the first registration of the specification's
    scenario. *)
Lemma register_document_counters_witness :
  let m := _create_empty_metadata "t0" in
  let m' := snd (register_document "t1" m "A1" "awr1.txt" 3 1200) in
  documents m !! "A1" = None
  ∧ count_synced m
  ∧ total_documents (statistics m') = 0 + 1
  ∧ total_chunks (statistics m') = 0 + 3
  ∧ total_size_bytes (statistics m') = 0 + 1200.
Proof.
  pose proof (register_document_counters
                "t1" (_create_empty_metadata "t0") "A1" "awr1.txt" 3 1200)
    as (_ & _ & _ & _ & Hnew & _).
  assert (documents (_create_empty_metadata "t0") !! "A1" = None)
    as Hfree by reflexivity.
  assert (count_synced (_create_empty_metadata "t0")) as Hsync
    by reflexivity.
  destruct (Hnew Hfree) as (_ & Hdocs & Hchunks & Hsize).
  simpl. split_and!; [exact Hfree | exact Hsync | | exact Hchunks | exact Hsize].
  exact (Hdocs Hsync).
Defined.

(** C1 as stated fails: registering an id a second time does not
    increment [total_documents]. *)
Lemma register_overwrite_keeps_document_count :
  let m1 := snd (register_document "t1" (_create_empty_metadata "t0")
                   "A1" "f.pdf" 5 2048) in
  let m2 := snd (register_document "t2" m1 "A1" "f.pdf" 5 2048) in
  total_documents (statistics m2) ≠ total_documents (statistics m1) + 1.
Proof. vm_compute. discriminate. Qed.

(** C2 at the failing input: after the same id is registered twice the
    stored chunk and byte totals count the document twice, while the
    sums over the registered entries count it once. *)
Theorem register_twice_statistics_drift :
  let m := run (_create_empty_metadata "t0")
             [ Register "t1" "A1" "awr1.txt" 3 1200;
               Register "t2" "A1" "awr1.txt" 3 1200 ] in
  statistics m = mkStatistics 1 6 2400
  ∧ recompute_statistics m = mkStatistics 1 3 1200.
Proof. split; vm_compute; reflexivity. Qed.

(** C4.  Unregistering a registered document returns true, removes its
    entry and lowers the three counters by one, by the entry's chunk
    count and by the entry's file size; unregistering an id that is not
    registered returns false and leaves the ledger as it was; and in
    every ledger reached from the empty one by calls whose chunk counts
    and file sizes are not negative, no counter is negative. *)
Theorem unregister_document_counters :
  (∀ m doc_id d,
     documents m !! doc_id = Some d →
     let r := unregister_document m doc_id in
     fst r = true
     ∧ documents (snd r) = delete doc_id (documents m)
     ∧ documents (snd r) !! doc_id = None
     ∧ total_documents (statistics (snd r))
       = total_documents (statistics m) - 1
     ∧ total_chunks (statistics (snd r))
       = total_chunks (statistics m) - chunk_count d
     ∧ total_size_bytes (statistics (snd r))
       = total_size_bytes (statistics m) - file_size d)
  ∧ (∀ m doc_id,
       documents m !! doc_id = None →
       unregister_document m doc_id = (false, m))
  ∧ (∀ now cs,
       Forall call_nonneg cs →
       let m := run (_create_empty_metadata now) cs in
       0 ≤ total_documents (statistics m)
       ∧ 0 ≤ total_chunks (statistics m)
       ∧ 0 ≤ total_size_bytes (statistics m)).
Proof.
  split_and!.
  - intros m k d Hd. unfold unregister_document. rewrite Hd. simpl.
    split_and!; try done. apply lookup_delete_eq.
  - intros m k Hd. unfold unregister_document. by rewrite Hd.
  - intros now cs Hcs m.
    destruct (run_totals_cover now cs Hcs) as [Hnn [Hch Hsz]].
    pose proof (run_count_synced now cs) as Hcnt.
    fold m in Hnn, Hch, Hsz, Hcnt. unfold count_synced in Hcnt.
    split_and!.
    + lia.
    + assert (0 ≤ sum_over chunk_count (documents m)); [|lia].
      apply sum_over_nonneg. intros k d Hk. by apply (Hnn k).
    + assert (0 ≤ sum_over file_size (documents m)); [|lia].
      apply sum_over_nonneg. intros k d Hk. by apply (Hnn k).
Qed.

(** C4 on the specification's scenario: two documents are registered,
    the first is unregistered twice. *)
Lemma unregister_document_counters_witness :
  let cs := [ Register "t1" "A1" "awr1.txt" 3 1200;
              Register "t2" "A2" "awr2.txt" 2 800 ] in
  let m := run (_create_empty_metadata "t0") cs in
  let r := unregister_document m "A1" in
  (statistics (snd r) = mkStatistics (2 - 1) (5 - 3) (2000 - 1200)
   ∧ fst r = true)
  ∧ unregister_document (snd r) "A1" = (false, snd r)
  ∧ 0 ≤ total_chunks (statistics (run (_create_empty_metadata "t0")
                                   (cs ++ [Unregister "A1"; Unregister "A1"]))).
Proof.
  intros cs m r.
  destruct unregister_document_counters as (Hpresent & Habsent & Hnonneg).
  assert (documents m !! "A1"
          = Some (mkDocInfo "awr1.txt" 3 1200 "t1" "indexed" None)) as Hd
    by (vm_compute; reflexivity).
  destruct (Hpresent m "A1" _ Hd) as (Hret & _ & Hgone & Hn & Hc & Hs).
  fold r in Hret, Hgone, Hn, Hc, Hs.
  split_and!.
  - destruct (statistics (snd r)) as [n c s]. simpl in Hn, Hc, Hs.
    rewrite Hn, Hc, Hs. vm_compute. reflexivity.
  - exact Hret.
  - exact (Habsent (snd r) "A1" Hgone).
  - apply (Hnonneg "t0" (cs ++ [Unregister "A1"; Unregister "A1"])).
    repeat constructor; simpl; lia.
Defined.

(** C8.  Right after [register_document] the document exists and its
    entry holds the file name, the chunk count and the file size that
    were passed, with status "indexed". *)
Theorem register_then_get_document_info now m doc_id fname chunks size_bytes :
  let m' := snd (register_document now m doc_id fname chunks size_bytes) in
  document_exists m' doc_id = true
  ∧ ∃ d, get_document_info m' doc_id = Some d
         ∧ filename d = fname
         ∧ chunk_count d = chunks
         ∧ file_size d = size_bytes
         ∧ status d = "indexed".
Proof.
  simpl. unfold document_exists, get_document_info. simpl.
  rewrite lookup_insert_eq. split.
  - apply bool_decide_eq_true. eauto.
  - eexists. split; [reflexivity|]. done.
Qed.

(** C9.  In every ledger reached from the empty one, [total_documents]
    is the number of entries of the documents map.  Each call keeps it
    so: [register_document] sets the counter to the size of the map
    whatever it was, [unregister_document] lowers both by one when it
    removes an entry and changes neither when it does not, and
    [clear_all_metadata] makes both zero. *)
Theorem total_documents_is_map_size :
  (∀ now cs,
     let m := run (_create_empty_metadata now) cs in
     total_documents (statistics m) = Z.of_nat (size (documents m)))
  ∧ (∀ now m doc_id fname chunks size_bytes,
       count_synced
         (snd (register_document now m doc_id fname chunks size_bytes)))
  ∧ (∀ m doc_id,
       match documents m !! doc_id with
       | Some _ =>
           total_documents (statistics (snd (unregister_document m doc_id)))
           = total_documents (statistics m) - 1
           ∧ Z.of_nat (size (documents (snd (unregister_document m doc_id))))
             = Z.of_nat (size (documents m)) - 1
       | None => snd (unregister_document m doc_id) = m
       end)
  ∧ (∀ now m,
       total_documents (statistics (clear_all_metadata now m)) = 0
       ∧ size (documents (clear_all_metadata now m)) = 0%nat).
Proof.
  split_and!.
  - intros now cs. apply run_count_synced.
  - intros. apply register_count_synced.
  - intros m k. unfold unregister_document.
    destruct (documents m !! k) as [d|] eqn:Hk; simpl; [|done].
    split; [done|]. rewrite map_size_delete, Hk.
    assert (size (documents m) ≠ 0%nat); [|lia].
    intros Hz. apply map_size_empty_inv in Hz. by rewrite Hz in Hk.
  - intros now m. split; reflexivity.
Qed.

End MetadataLedger.

Section LedgerFile.
Import MetadataManager.

(** C7.  [_load_metadata] never raises.  When the backing file is
    missing, cannot be read or does not parse, it returns the empty
    ledger: version "1.0", the creation time, no documents and the
    three totals at zero.  When the file exists and holds a dict whose
    documents have a length, it returns what the file holds. *)
Theorem load_metadata_falls_back_to_empty
    (json_load : string → result json) (now : string) :
  (∀ file, ∃ data, _load_metadata json_load file now = Ok data)
  ∧ _load_metadata json_load None now
    = Ok (to_json (_create_empty_metadata now))
  ∧ (∀ e, _load_metadata json_load (Some (Raise e)) now
          = Ok (to_json (_create_empty_metadata now)))
  ∧ (∀ text e, json_load text = Raise e →
       _load_metadata json_load (Some (Ok text)) now
       = Ok (to_json (_create_empty_metadata now)))
  ∧ (∀ text kv n,
       json_load text = Ok (JDict kv) →
       py_len (default (JDict ∅) (kv !! "documents")) = Ok n →
       _load_metadata json_load (Some (Ok text)) now = Ok (JDict kv))
  ∧ _create_empty_metadata now = mkMetadata "1.0" now ∅ (mkStatistics 0 0 0)
  ∧ to_json (_create_empty_metadata now)
    = JDict (<["version" := JStr "1.0"]>
            (<["created_at" := JStr now]>
            (<["documents" := JDict ∅]>
            (<["statistics" :=
                 JDict (<["total_documents" := JInt 0]>
                       (<["total_chunks" := JInt 0]>
                       (<["total_size_bytes" := JInt 0]> ∅)))]> ∅)))).
Proof.
  split_and!.
  - intros [contents|]; simpl; [|eauto].
    unfold try_except.
    destruct (_ ← contents; _) as [data|e]; eauto.
  - reflexivity.
  - reflexivity.
  - intros text e Hparse. simpl. by rewrite Hparse.
  - intros text kv n Hparse Hlen. simpl. rewrite Hparse. simpl.
    destruct (kv !! "documents") as [docs|]; simpl in *; [|done].
    by rewrite Hlen.
  - reflexivity.
  - unfold to_json. simpl. by rewrite fmap_empty.
Qed.

(** C7 with a parser that rejects the text of the file, and with one
    that reads an empty dict from it. *)
Lemma load_metadata_falls_back_to_empty_witness :
  _load_metadata Examples.toy_json_load (Some (Ok "{not json")) "t0"
  = Ok (to_json (_create_empty_metadata "t0"))
  ∧ _load_metadata Examples.toy_json_load (Some (Ok "{}")) "t0"
    = Ok (JDict ∅).
Proof.
  destruct (load_metadata_falls_back_to_empty Examples.toy_json_load "t0")
    as (_ & _ & _ & Hbad & Hgood & _).
  split.
  - apply (Hbad "{not json" (LibraryError "JSONDecodeError")). reflexivity.
  - apply (Hgood "{}" ∅ 0%nat); reflexivity.
Defined.

End LedgerFile.

Section ChunkValidation.
Import DocumentProcessor.

Lemma lstrip_nil_iff text : lstrip text = [] ↔ blank text.
Proof.
  unfold blank. induction text as [|c text IH]; simpl.
  - split; [constructor | done].
  - destruct (py_isspace c) eqn:Hc.
    + rewrite IH. split; [by constructor | by inversion 1].
    + split; [done|]. inversion 1; congruence.
Qed.

Lemma lstrip_blank_iff text : blank (lstrip text) ↔ blank text.
Proof.
  unfold blank. induction text as [|c text IH]; simpl; [done|].
  destruct (py_isspace c) eqn:Hc; [|done].
  rewrite IH. split; [by constructor | by inversion 1].
Qed.

Lemma blank_rev text : blank (rev text) ↔ blank text.
Proof.
  unfold blank. split; intros H.
  - rewrite <- (rev_involutive text). by apply Forall_rev.
  - by apply Forall_rev.
Qed.

Lemma rstrip_nil_iff text : rstrip text = [] ↔ blank text.
Proof.
  unfold rstrip. rewrite <- blank_rev, <- lstrip_nil_iff.
  split; intros H.
  - apply (f_equal (@rev N)) in H. by rewrite rev_involutive in H.
  - by rewrite H.
Qed.

Lemma strip_nil_iff text : strip text = [] ↔ blank text.
Proof. unfold strip. by rewrite rstrip_nil_iff, lstrip_blank_iff. Qed.

Lemma empty_content_iff chunk :
  empty_content chunk = true ↔ blank (page_content chunk).
Proof.
  unfold empty_content.
  destruct (page_content chunk) as [|c text] eqn:Htext.
  - split; [constructor | done].
  - rewrite Nat.eqb_eq, length_zero_iff_nil. apply strip_nil_iff.
Qed.

Lemma missing_field_iff chunk :
  missing_field required_fields chunk = false
  ↔ is_Some (metadata chunk !! "document_id")
    ∧ is_Some (metadata chunk !! "filename")
    ∧ is_Some (metadata chunk !! "source_path").
Proof.
  unfold required_fields. simpl.
  rewrite <- !not_eq_None_Some.
  repeat case_bool_decide; split; try done; intros (?&?&?); done.
Qed.

Lemma validate_loop_iff chunks :
  validate_loop chunks = true ↔ Forall well_formed_chunk chunks.
Proof.
  induction chunks as [|chunk rest IH].
  - split; [constructor | done].
  - change (validate_loop (chunk :: rest))
      with (if missing_field required_fields chunk then false
            else if empty_content chunk then false
            else validate_loop rest).
    rewrite Forall_cons. unfold well_formed_chunk at 1.
    rewrite <- IH, <- empty_content_iff.
    pose proof (missing_field_iff chunk) as [Hto Hfrom].
    destruct (missing_field required_fields chunk).
    + split; [done|]. intros [(H1 & H2 & H3 & _) _].
      by discriminate Hfrom.
    + destruct (Hto eq_refl) as (H1 & H2 & H3).
      destruct (empty_content chunk).
      * split; [done|]. intros [(_ & _ & _ & H) _]. by destruct H.
      * split; [|by intros [_ ?]]. intros Hrest. by split_and!.
Qed.

(** C10.  On the empty list [validate_chunks] returns false although
    every chunk of the empty list is well formed; on a list that is not
    empty it returns true exactly when every chunk has the three
    identity fields in its metadata and a text that is not blank. *)
Theorem validate_chunks_spec :
  validate_chunks [] = false
  ∧ Forall well_formed_chunk []
  ∧ ∀ chunk rest,
      validate_chunks (chunk :: rest) = true
      ↔ Forall well_formed_chunk (chunk :: rest).
Proof.
  split_and!; [done | constructor |].
  intros chunk rest. apply validate_loop_iff.
Qed.

End ChunkValidation.

Section ChunkLoading.
Import DocumentProcessor.

Lemma stamp_stamped file_path doc_id fname doc :
  stamped file_path doc_id fname (stamp file_path doc_id fname doc).
Proof. unfold stamped, stamp. simpl. by simplify_map_eq. Qed.

Lemma stamped_weaken file_path doc_id fname (doc chunk : Document) :
  metadata doc ⊆ metadata chunk →
  stamped file_path doc_id fname doc → stamped file_path doc_id fname chunk.
Proof.
  intros Hsub (H1 & H2 & H3).
  split_and!; eapply lookup_weaken; eauto.
Qed.

Lemma short_splitter_carries_metadata path text :
  carries_metadata (Examples.one_file path text).
Proof.
  intros size overlap docs chunk Hin. simpl in Hin.
  unfold Examples.short_splitter in Hin.
  apply list_elem_of_In, filter_In in Hin as [Hin _].
  exists chunk. split; [by apply list_elem_of_In | done].
Qed.

(** C6 (as amended).  [load_and_split_document] raises when the file
    does not exist, when the loader raises, and when the loader returns
    no document.  When the loader returns documents, it returns the
    chunks the splitter cuts from the stamped documents, whatever their
    number; and if the splitter hands the metadata of a document on to
    its chunks, every returned chunk carries the document id, the file
    name and the source path that were passed. *)
Theorem load_and_split_document_spec env file_path doc_id fname :
  let run := load_and_split_document env file_path doc_id fname in
  (os_path_exists env file_path = false →
     run = Raise (CustomException
                    (FileNotFoundError ("File not found: " +:+ file_path))))
  ∧ (os_path_exists env file_path = true →
       ∀ e, loader_load env file_path = Raise e →
            run = Raise (CustomException e))
  ∧ (os_path_exists env file_path = true →
       loader_load env file_path = Ok [] →
       run = Raise (CustomException
                      (ValueError ("No content loaded from " +:+ fname))))
  ∧ (os_path_exists env file_path = true →
       ∀ docs, loader_load env file_path = Ok docs → docs ≠ [] →
         run = Ok (split_documents env CHUNK_SIZE CHUNK_OVERLAP
                     (map (stamp file_path doc_id fname) docs)))
  ∧ (∀ chunks, run = Ok chunks →
       carries_metadata env →
       Forall (stamped file_path doc_id fname) chunks).
Proof.
  unfold load_and_split_document. simpl. split_and!.
  - by intros ->.
  - intros -> e ->. done.
  - intros -> ->. done.
  - intros -> docs -> Hdocs. by destruct docs.
  - intros chunks Hrun Hcarries.
    destruct (os_path_exists env file_path); [|done]. simpl in Hrun.
    destruct (loader_load env file_path) as [docs|e]; [|done].
    destruct docs as [|doc docs]; [done|]. simpl in Hrun.
    injection Hrun as <-.
    apply Forall_forall. intros chunk Hin.
    apply Hcarries in Hin as (d & Hd & Hsub).
    change (stamp file_path doc_id fname doc
            :: map (stamp file_path doc_id fname) docs)
      with (map (stamp file_path doc_id fname) (doc :: docs)) in Hd.
    apply list_elem_of_In, in_map_iff in Hd as (d0 & <- & _).
    eapply stamped_weaken; [exact Hsub | apply stamp_stamped].
Qed.

(** The amended C6 on a file holding "cpu". *)
Lemma load_and_split_document_spec_witness :
  let env := Examples.one_file "awr1.txt" Examples.cpu in
  let stamps : gmap string string :=
    <["source_path" := "awr1.txt"]>
    (<["filename" := "awr1.txt"]>
    (<["document_id" := "A1"]> {["source" := "awr1.txt"]})) in
  load_and_split_document env "awr1.txt" "A1" "awr1.txt"
  = Ok [ mkDocument Examples.cpu stamps ]
  ∧ Forall (stamped "awr1.txt" "A1" "awr1.txt")
      [ mkDocument Examples.cpu stamps ]
  ∧ load_and_split_document env "missing.txt" "A1" "missing.txt"
    = Raise (CustomException (FileNotFoundError "File not found: missing.txt")).
Proof.
  intros env stamps.
  destruct (load_and_split_document_spec env "awr1.txt" "A1" "awr1.txt")
    as (_ & _ & _ & Hok & Hstamped).
  destruct (load_and_split_document_spec env "missing.txt" "A1" "missing.txt")
    as (Hmissing & _).
  assert (load_and_split_document env "awr1.txt" "A1" "awr1.txt"
          = Ok [ mkDocument Examples.cpu stamps ]) as Hrun.
  { rewrite (Hok eq_refl _ eq_refl); [reflexivity | discriminate]. }
  split_and!.
  - exact Hrun.
  - apply (Hstamped _ Hrun). apply short_splitter_carries_metadata.
  - apply Hmissing. reflexivity.
Defined.

(** C6 as stated fails: a file that exists and is read as one document
    with no text gives the empty chunk list, and nothing is raised. *)
Lemma load_and_split_empty_text_returns_no_chunks :
  let env := Examples.one_file "empty.txt" [] in
  os_path_exists env "empty.txt" = true
  ∧ load_and_split_document env "empty.txt" "A1" "empty.txt" = Ok [].
Proof. split; reflexivity. Qed.

End ChunkLoading.

Section Indexing.
Import VectorStoreManager.
Context {Store : Type} (lib : Qdrant Store).

(** C3.  On a chunk list that is not empty, with the point count read
    as [before] ahead of [add_documents] and as [after] behind it:
    when no point was added [index_documents] raises; when points were
    added but not as many as there are chunks it returns the record
    ids and logs one warning; and when the collection grew by the
    number of chunks, as it does when this call is its only writer, it
    returns the record ids, logs nothing, and the point count stands at
    [before] plus the number of chunks. *)
Theorem index_documents_checks_point_count
    (s s' : Store) (documents : list Document) (before after : Z)
    (ids : list string) :
  documents ≠ [] →
  get_collection lib s = Ok before →
  new_vectorstore lib s = Ok () →
  add_documents lib documents s = (Ok ids, s') →
  get_collection lib s' = Ok after →
  let expected := Z.of_nat (length documents) in
  (after - before = 0 →
     index_documents lib documents s
     = (Raise (CustomException no_points), s',
        [ErrNoPointsAdded; ErrIndexingFailed no_points]))
  ∧ (after - before ≠ 0 → after - before ≠ expected →
       index_documents lib documents s
       = (Ok ids, s',
          [WarnPointsMismatch (length documents) (after - before)]))
  ∧ (after - before = expected →
       index_documents lib documents s = (Ok ids, s', [])
       ∧ get_collection lib s' = Ok (before + expected)).
Proof.
  intros Hne Hbefore Hvs Hadd Hafter expected.
  destruct documents as [|doc rest]; [done|].
  assert (expected ≠ 0) as Hexp by (unfold expected; simpl; lia).
  unfold index_documents, get_vectorstore, try_prog, mbind, prog_bind,
    read, update, log, raise, mret, prog_ret.
  rewrite Hbefore, Hvs, Hadd, Hafter.
  split_and!.
  - intros Hz. rewrite Hz. reflexivity.
  - intros Hnz Hmis.
    rewrite (proj2 (Z.eqb_neq _ 0) Hnz).
    fold expected. rewrite (proj2 (Z.eqb_neq _ expected) Hmis).
    reflexivity.
  - intros Heq. fold expected. rewrite Heq.
    rewrite (proj2 (Z.eqb_neq _ 0) Hexp), Z.eqb_refl.
    split; [reflexivity|]. f_equal. lia.
Qed.

End Indexing.

Section IndexingExamples.
Import VectorStoreManager Examples.

(** C3 on three in-memory collections: one that keeps every document,
    one that keeps none and one that keeps the first of a batch. *)
Lemma index_documents_checks_point_count_witness :
  let c1 := chunk cpu "A1" "awr1.txt" "/tmp/awr1.txt" in
  let c2 := chunk cpu "A2" "awr2.txt" "/tmp/awr2.txt" in
  let no_points :=
    Exception "Documents were not indexed - no points added to collection!" in
  index_documents (memory (λ docs, docs)) [c1; c2] [c1]
  = (Ok ["point-id"; "point-id"], [c1; c1; c2], [])
  ∧ index_documents (memory (λ _, [])) [c1; c2] [c1]
    = (Raise (CustomException no_points), [c1],
       [ErrNoPointsAdded; ErrIndexingFailed no_points])
  ∧ index_documents (memory (take 1)) [c1; c2] [c1]
    = (Ok ["point-id"; "point-id"], [c1; c1], [WarnPointsMismatch 2 1]).
Proof.
  intros c1 c2 no_points. split_and!.
  - refine (proj1 (proj2 (proj2
      (index_documents_checks_point_count (memory (λ docs, docs))
         [c1] [c1; c1; c2] [c1; c2] 1 3 ["point-id"; "point-id"]
         _ eq_refl eq_refl eq_refl eq_refl)) eq_refl)).
    discriminate.
  - refine (proj1
      (index_documents_checks_point_count (memory (λ _, []))
         [c1] [c1] [c1; c2] 1 1 ["point-id"; "point-id"]
         _ eq_refl eq_refl eq_refl eq_refl) eq_refl).
    discriminate.
  - refine (proj1 (proj2
      (index_documents_checks_point_count (memory (take 1))
         [c1] [c1; c1] [c1; c2] 1 2 ["point-id"; "point-id"]
         _ eq_refl eq_refl eq_refl eq_refl)) _ _);
      [discriminate | simpl; lia ..].
Defined.

End IndexingExamples.

Section Retrieval.
Import DocumentRetriever.
Context {Store : Type} (lib : Qdrant Store).

Lemma document_id_filter_holds doc_ids d :
  filter_holds
    {| must := [ {| key := "metadata.document_id";
                    match_cond := MatchAny doc_ids |} ] |} d = true →
  ∃ v, metadata d !! "document_id" = Some v ∧ v ∈ doc_ids.
Proof.
  unfold filter_holds, condition_holds, payload_field. simpl.
  destruct (metadata d !! "document_id") as [v|]; [|done].
  rewrite andb_true_r. intros Hin. apply bool_decide_eq_true_1 in Hin. eauto.
Qed.

(** C5.  With the vector store at hand, [retrieve_documents] asks the
    library through a retriever without filter when the id list is
    empty, and through one whose filter is "document_id is any of the
    listed ids" when it is not; it returns the answer as it is, an
    empty one too, and logs nothing.  When the library respects the
    retriever, every document returned for a list that is not empty
    has a document id that is an element of the list, and there are at
    most [k] of them. *)
Theorem retrieve_documents_filter
    (s : Store) (query : string) (doc_ids : list string) (k : Z) :
  new_vectorstore lib s = Ok () →
  let unfiltered :=
    {| search_type := "similarity"; search_k := k;
       search_filter := None |} in
  let filtered :=
    {| search_type := "similarity"; search_k := k;
       search_filter :=
         Some {| must := [ {| key := "metadata.document_id";
                              match_cond := MatchAny doc_ids |} ] |} |} in
  let retriever :=
    match doc_ids with [] => unfiltered | _ :: _ => filtered end in
  (∀ docs, invoke lib retriever query s = Ok docs →
     retrieve_documents lib query doc_ids k s = (Ok docs, s, []))
  ∧ (invoke lib retriever query s = Ok [] →
       retrieve_documents lib query doc_ids k s = (Ok [], s, []))
  ∧ (doc_ids ≠ [] →
       ∀ docs, retrieve_documents lib query doc_ids k s = (Ok docs, s, []) →
         invoke lib filtered query s = Ok docs
         ∧ (respects filtered docs →
              Forall (λ d, ∃ v, metadata d !! "document_id" = Some v
                                ∧ v ∈ doc_ids) docs
              ∧ Z.of_nat (length docs) ≤ Z.max 0 k)).
Proof.
  intros Hvs unfiltered filtered retriever.
  assert (∀ r : result (list Document),
    invoke lib retriever query s = r →
    retrieve_documents lib query doc_ids k s
    = match r with
      | Ok docs => (Ok docs, s, [])
      | Raise e => (Raise e, s, [ErrRetrievalFailed e])
      end) as Hrun.
  { intros r Hr. subst retriever.
    unfold retrieve_documents, get_filtered_retriever,
      get_unfiltered_retriever, VectorStoreManager.get_vectorstore,
      try_prog, mbind, prog_bind, read, log, raise, mret, prog_ret.
    destruct doc_ids; rewrite Hvs; fold unfiltered; fold filtered;
      rewrite Hr; by destruct r. }
  split_and!.
  - intros docs Hdocs. by rewrite (Hrun _ Hdocs).
  - intros Hdocs. by rewrite (Hrun _ Hdocs).
  - intros Hne docs Hret.
    destruct doc_ids as [|id ids]; [done|]. subst retriever.
    destruct (invoke lib filtered query s) as [docs'|e] eqn:Hinv.
    + rewrite (Hrun _ eq_refl) in Hret. injection Hret as ->.
      split; [done|]. intros [Hlen Hfilter]. split.
      * specialize (Hfilter _ eq_refl).
        eapply Forall_impl; [exact Hfilter|].
        intros d Hd. by apply document_id_filter_holds.
      * simpl in Hlen. lia.
    + by rewrite (Hrun _ eq_refl) in Hret.
Qed.

End Retrieval.

Section RetrievalExamples.
Import DocumentRetriever Examples.

(** C5 on an in-memory collection holding two chunks of document A1
    and one of document A2, asked for A1 with [k = 10]. *)
Lemma retrieve_documents_filter_witness :
  let a1 := chunk cpu "A1" "awr1.txt" "/tmp/awr1.txt" in
  let a2 := chunk cpu "A2" "awr2.txt" "/tmp/awr2.txt" in
  let s := [a1; a2; a1] in
  retrieve_documents (memory (λ docs, docs)) "cpu usage" ["A1"] 10 s
  = (Ok [a1; a1], s, [])
  ∧ Forall (λ d, ∃ v, metadata d !! "document_id" = Some v ∧ v ∈ ["A1"])
      [a1; a1]
  ∧ Z.of_nat (length [a1; a1]) ≤ Z.max 0 10.
Proof.
  intros a1 a2 s.
  destruct (retrieve_documents_filter (memory (λ docs, docs)) s
              "cpu usage" ["A1"] 10 eq_refl) as (Hrun & _ & Hfiltered).
  assert (retrieve_documents (memory (λ docs, docs)) "cpu usage" ["A1"] 10 s
          = (Ok [a1; a1], s, [])) as Hret by (apply Hrun; reflexivity).
  split; [exact Hret|].
  apply (Hfiltered ltac:(discriminate) _ Hret).
  split.
  - simpl. lia.
  - intros f [= <-]. repeat constructor.
Defined.

(** The filter compares whole ids: asking for "A" does not return a chunk
    of document "A1". *)
Lemma document_id_filter_is_not_substring :
  let a1 := chunk cpu "A1" "awr1.txt" "/tmp/awr1.txt" in
  filter_holds
    {| must := [ {| key := "metadata.document_id";
                    match_cond := MatchAny ["A"] |} ] |} a1 = false
  ∧ retrieve_documents (memory (λ docs, docs)) "cpu usage" ["A"] 10 [a1]
    = (Ok [], [a1], []).
Proof. split; vm_compute; reflexivity. Qed.

End RetrievalExamples.

(** * Further properties of the ledger *)

Section LedgerRoundTrips.
Import MetadataManager.

(** X1.  Registering an id that is not registered and unregistering it
    right away gives back the ledger one started from, entries and
    statistics alike, provided the document counter agreed with the map. *)
Theorem register_then_unregister_restores
    now m doc_id fname chunks size_bytes :
  documents m !! doc_id = None →
  count_synced m →
  unregister_document
    (snd (register_document now m doc_id fname chunks size_bytes)) doc_id
  = (true, m).
Proof.
  intros Hfresh Hsync. unfold unregister_document. simpl.
  rewrite lookup_insert_eq. simpl. f_equal.
  destruct m as [v c docs [n ch sz]]. simpl in *.
  unfold count_synced in Hsync. simpl in Hsync.
  rewrite delete_insert_eq, delete_id by done.
  rewrite map_size_insert_None by done.
  f_equal. f_equal; lia.
Qed.

Lemma register_then_unregister_restores_witness :
  let m := snd (register_document "t1" (_create_empty_metadata "t0")
                  "A1" "awr1.txt" 3 1200) in
  unregister_document
    (snd (register_document "t2" m "A2" "awr2.txt" 2 800)) "A2"
  = (true, m).
Proof.
  intros m. apply register_then_unregister_restores.
  - vm_compute. reflexivity.
  - vm_compute. reflexivity.
Defined.

(** X2.  Registering an id that is already registered leaves the number
    of documents as it was and adds the contribution of the entry it
    replaces to the distance between each running total and the sum over
    the entries. *)
Theorem register_overwrite_drift
    now m doc_id old fname chunks size_bytes :
  documents m !! doc_id = Some old →
  let m' := snd (register_document now m doc_id fname chunks size_bytes) in
  size (documents m') = size (documents m)
  ∧ total_chunks (statistics m') - sum_over chunk_count (documents m')
    = total_chunks (statistics m) - sum_over chunk_count (documents m)
      + chunk_count old
  ∧ total_size_bytes (statistics m') - sum_over file_size (documents m')
    = total_size_bytes (statistics m) - sum_over file_size (documents m)
      + file_size old.
Proof.
  intros Hold. simpl. split_and!.
  - by rewrite map_size_insert, Hold.
  - rewrite sum_over_insert, (sum_over_delete chunk_count _ _ _ Hold).
    simpl. lia.
  - rewrite sum_over_insert, (sum_over_delete file_size _ _ _ Hold).
    simpl. lia.
Qed.

Lemma register_overwrite_drift_witness :
  let m := snd (register_document "t1" (_create_empty_metadata "t0")
                  "A1" "awr1.txt" 3 1200) in
  let m' := snd (register_document "t2" m "A1" "awr1.txt" 5 2000) in
  size (documents m') = size (documents m)
  ∧ total_chunks (statistics m') - sum_over chunk_count (documents m')
    = total_chunks (statistics m) - sum_over chunk_count (documents m) + 3
  ∧ total_size_bytes (statistics m') - sum_over file_size (documents m')
    = total_size_bytes (statistics m) - sum_over file_size (documents m)
      + 1200.
Proof.
  intros m m'.
  apply (register_overwrite_drift "t2" m "A1"
           (mkDocInfo "awr1.txt" 3 1200 "t1" "indexed" None)).
  vm_compute. reflexivity.
Defined.

(** X7.  As long as no [Register] uses an id that is registered at the
    time of the call, the stored statistics are the sums over the
    registered entries: in every ledger so reached from the empty one,
    and again after [clear_all_metadata] whatever came before it. *)
Theorem statistics_recomputed_when_ids_fresh now m cs :
  (fresh_ids (_create_empty_metadata now) cs →
     statistics (run (_create_empty_metadata now) cs)
     = recompute_statistics (run (_create_empty_metadata now) cs))
  ∧ (fresh_ids (clear_all_metadata now m) cs →
       statistics (run (clear_all_metadata now m) cs)
       = recompute_statistics (run (clear_all_metadata now m) cs)).
Proof.
  split; intros Hfresh; apply run_statistics_recomputed; try done;
    unfold recompute_statistics; simpl; by rewrite !sum_over_empty.
Qed.

Lemma statistics_recomputed_when_ids_fresh_witness :
  let cs := [ Register "t1" "A1" "awr1.txt" 3 1200;
              Register "t2" "A2" "awr2.txt" 2 800;
              Unregister "A1";
              Register "t3" "A1" "awr1.txt" 4 1300 ] in
  statistics (run (_create_empty_metadata "t0") cs) = mkStatistics 2 6 2100
  ∧ recompute_statistics (run (_create_empty_metadata "t0") cs)
    = mkStatistics 2 6 2100.
Proof.
  intros cs.
  destruct (statistics_recomputed_when_ids_fresh
              "t0" (_create_empty_metadata "t0") cs) as [Hrun _].
  assert (statistics (run (_create_empty_metadata "t0") cs)
          = mkStatistics 2 6 2100) as Hstat by (vm_compute; reflexivity).
  split; [exact Hstat|]. rewrite <- Hrun; [exact Hstat|].
  vm_compute. repeat split.
Defined.

End LedgerRoundTrips.

Section StatusUpdates.
Import MetadataManager.

Lemma same_entry_refl d : same_entry d d.
Proof. by repeat split. Qed.

Lemma same_entry_trans d1 d2 d3 :
  same_entry d1 d2 → same_entry d2 d3 → same_entry d1 d3.
Proof.
  intros (?&?&?&?) (?&?&?&?). repeat split; congruence.
Qed.

Lemma same_but_status_refl m : same_but_status m m.
Proof.
  repeat split. intros k.
  destruct (documents m !! k); constructor. apply same_entry_refl.
Qed.

Lemma same_but_status_trans m1 m2 m3 :
  same_but_status m1 m2 → same_but_status m2 m3 → same_but_status m1 m3.
Proof.
  intros (?&?&?&?&H12) (?&?&?&?&H23).
  split_and!; try congruence. intros k.
  specialize (H12 k). specialize (H23 k).
  destruct H12 as [d1 d2 Hd|]; inversion H23; subst; constructor.
  eapply same_entry_trans; eauto.
Qed.

Lemma update_status_same_but_status now m doc_id new_status :
  same_but_status (snd (update_document_status now m doc_id new_status)) m.
Proof.
  unfold update_document_status.
  destruct (documents m !! doc_id) as [d|] eqn:Hd; simpl;
    [|apply same_but_status_refl].
  split_and!; simpl; try done.
  - by rewrite map_size_insert, Hd.
  - intros k. rewrite lookup_insert. case_decide as Hk.
    + subst k. rewrite Hd. constructor. by repeat split.
    + destruct (documents m !! k); constructor. apply same_entry_refl.
Qed.

Lemma step_same_but_status m1 m2 c :
  is_update_status c = false →
  same_but_status m1 m2 → same_but_status (step m1 c) (step m2 c).
Proof.
  intros Hc (Hv & Hcr & Hst & Hsz & Hdocs).
  destruct c as [now k fname chunks size_bytes|k|now k st|now];
    simpl; [| |done|apply same_but_status_refl].
  - pose proof (Hdocs k) as Hk.
    split_and!; simpl; try done.
    + rewrite !map_size_insert, Hst.
      destruct Hk; simpl; by rewrite Hsz.
    + rewrite !map_size_insert.
      destruct Hk; simpl; by rewrite Hsz.
    + intros j. rewrite !lookup_insert. case_decide; [|apply Hdocs].
      constructor. apply same_entry_refl.
  - pose proof (Hdocs k) as Hk. unfold unregister_document.
    destruct Hk as [d1 d2 (_ & Hch & Hfs & _)|]; simpl;
      [|by split_and!].
    split_and!; simpl; try done.
    + by rewrite Hst, Hch, Hfs.
    + rewrite !map_size_delete.
      pose proof (Hdocs k) as Hk.
      destruct Hk; simpl; by rewrite Hsz.
    + intros j. rewrite !lookup_delete. case_decide; [constructor|apply Hdocs].
Qed.

(** X3.  Calls of [update_document_status] touch nothing but the status
    and the time of the last update: the ledger after a sequence of calls
    and the ledger after the same sequence without its status updates
    have the same statistics, the same registered ids, and entries with
    the same file name, chunk count, file size and ingestion time. *)
Theorem status_updates_leave_statistics cs : ∀ m,
  let m1 := run m cs in
  let m2 := run m (List.filter (λ c, negb (is_update_status c)) cs) in
  statistics m1 = statistics m2
  ∧ (∀ doc_id, document_exists m1 doc_id = document_exists m2 doc_id)
  ∧ same_but_status m1 m2.
Proof.
  assert (∀ m1 m2, same_but_status m1 m2 →
            same_but_status (run m1 cs)
              (run m2 (List.filter (λ c, negb (is_update_status c)) cs)))
    as Hrun.
  { unfold run. induction cs as [|c cs IH]; intros m1 m2 H12; [done|].
    simpl. destruct (is_update_status c) eqn:Hc; simpl.
    - apply IH. destruct c; try done. simpl.
      eapply same_but_status_trans; [|exact H12].
      apply update_status_same_but_status.
    - apply IH. by apply step_same_but_status. }
  intros m m1 m2.
  pose proof (Hrun m m (same_but_status_refl m)) as Hsame.
  fold m1 m2 in Hsame. split_and!; [apply Hsame| |done].
  intros k. destruct Hsame as (_ & _ & _ & _ & Hdocs).
  unfold document_exists. specialize (Hdocs k).
  destruct Hdocs as [d1 d2 _|].
  - by rewrite !bool_decide_eq_true_2 by eauto.
  - by rewrite !bool_decide_eq_false_2 by apply is_Some_None.
Qed.

End StatusUpdates.

Section LedgerQueries.
Import MetadataManager.

(** X4.  [get_documents_by_filename] lists exactly the ids whose entry
    holds the file name, each once; an id is listed under the name it was
    just registered with, and under no name once it is unregistered. *)
Theorem get_documents_by_filename_spec m fname :
  (∀ doc_id,
     doc_id ∈ get_documents_by_filename m fname
     ↔ ∃ d, documents m !! doc_id = Some d ∧ filename d = fname)
  ∧ NoDup (get_documents_by_filename m fname)
  ∧ (∀ now doc_id chunks size_bytes,
       doc_id ∈ get_documents_by_filename
                  (snd (register_document now m doc_id fname chunks size_bytes))
                  fname)
  ∧ (∀ doc_id,
       doc_id ∉ get_documents_by_filename
                  (snd (unregister_document m doc_id)) fname).
Proof.
  assert (∀ m' doc_id,
            doc_id ∈ get_documents_by_filename m' fname
            ↔ ∃ d, documents m' !! doc_id = Some d ∧ filename d = fname)
    as Hmem.
  { intros m' k. unfold get_documents_by_filename.
    rewrite list_elem_of_fmap. split.
    - intros ([j d] & -> & Hin).
      apply list_elem_of_filter in Hin as [Hname Hin].
      apply elem_of_map_to_list in Hin. eauto.
    - intros (d & Hd & Hname). exists (k, d). split; [done|].
      apply list_elem_of_filter. split; [done|].
      by apply elem_of_map_to_list. }
  split_and!.
  - apply Hmem.
  - unfold get_documents_by_filename. apply NoDup_fmap_fst.
    + intros k d1 d2 [_ H1]%list_elem_of_filter [_ H2]%list_elem_of_filter.
      exact (map_to_list_unique _ _ _ _ H1 H2).
    + apply NoDup_filter, NoDup_map_to_list.
  - intros now k chunks size_bytes. apply Hmem. simpl.
    rewrite lookup_insert_eq. eauto.
  - intros k. rewrite Hmem. intros (d & Hd & _).
    unfold unregister_document in Hd.
    destruct (documents m !! k) eqn:Hk; simpl in Hd.
    + by rewrite lookup_delete_eq in Hd.
    + congruence.
Qed.

(** X5.  [get_ingestion_history] gives the empty dict for an id that is
    not registered.  Right after a registration the time of the last
    update it reports is the time of ingestion; after a status update it
    is the time of that update, while the time of ingestion, the chunk
    count and the other fields are those of the entry. *)
Theorem get_ingestion_history_last_updated :
  (∀ m doc_id,
     documents m !! doc_id = None → get_ingestion_history m doc_id = ∅)
  ∧ (∀ now m doc_id fname chunks size_bytes,
       let h := get_ingestion_history
                  (snd (register_document now m doc_id fname chunks size_bytes))
                  doc_id in
       h !! "doc_id" = Some (JStr doc_id)
       ∧ h !! "status" = Some (JStr "indexed")
       ∧ h !! "ingested_at" = Some (JStr now)
       ∧ h !! "last_updated" = Some (JStr now))
  ∧ (∀ now m doc_id new_status d,
       documents m !! doc_id = Some d →
       let h := get_ingestion_history
                  (snd (update_document_status now m doc_id new_status))
                  doc_id in
       h !! "filename" = Some (JStr (filename d))
       ∧ h !! "chunk_count" = Some (JInt (chunk_count d))
       ∧ h !! "file_size" = Some (JInt (file_size d))
       ∧ h !! "ingested_at" = Some (JStr (ingested_at d))
       ∧ h !! "status" = Some (JStr new_status)
       ∧ h !! "last_updated" = Some (JStr now)).
Proof.
  split_and!.
  - intros m k Hk. unfold get_ingestion_history. by rewrite Hk.
  - intros now m k fname chunks size_bytes. simpl.
    unfold get_ingestion_history. simpl. rewrite lookup_insert_eq. simpl.
    split_and!; by simplify_map_eq.
  - intros now m k st d Hd. simpl.
    unfold get_ingestion_history, update_document_status.
    rewrite Hd. simpl. rewrite lookup_insert_eq. simpl.
    split_and!; by simplify_map_eq.
Qed.

Lemma get_ingestion_history_last_updated_witness :
  let m := snd (register_document "t1" (_create_empty_metadata "t0")
                  "A1" "awr1.txt" 3 1200) in
  get_ingestion_history m "A2" = ∅
  ∧ get_ingestion_history m "A1" !! "last_updated" = Some (JStr "t1")
  ∧ (let h := get_ingestion_history
                (snd (update_document_status "t2" m "A1" "error")) "A1" in
     h !! "ingested_at" = Some (JStr "t1")
     ∧ h !! "status" = Some (JStr "error")
     ∧ h !! "last_updated" = Some (JStr "t2")).
Proof.
  intros m.
  destruct get_ingestion_history_last_updated as (Habsent & Hreg & Hupd).
  split_and!.
  - apply Habsent. vm_compute. reflexivity.
  - apply (Hreg "t1" (_create_empty_metadata "t0") "A1" "awr1.txt" 3 1200).
  - assert (documents m !! "A1"
            = Some (mkDocInfo "awr1.txt" 3 1200 "t1" "indexed" None)) as Hd
      by (vm_compute; reflexivity).
    destruct (Hupd "t2" m "A1" "error" _ Hd) as (_ & _ & _ & Hi & Hs & Hl).
    exact (conj Hi (conj Hs Hl)).
Defined.

(** X6.  Of a backing file that exists and can be read, [_load_metadata]
    keeps what the parser returns exactly when that is a dict whose
    "documents" entry is missing or is a string, a list or a dict; no
    other part of the layout is looked at.  Every other parsed value is
    replaced by the empty ledger.  In particular a file holding a ledger
    in the layout is loaded as it is. *)
Theorem load_metadata_keeps_sized_documents
    (json_load : string → result json) (text now : string) :
  _load_metadata json_load (Some (Ok text)) now
  = Ok (match json_load text with
        | Ok (JDict kv) =>
            match kv !! "documents" with
            | None | Some (JStr _) | Some (JList _) | Some (JDict _) => JDict kv
            | Some _ => to_json (_create_empty_metadata now)
            end
        | _ => to_json (_create_empty_metadata now)
        end)
  ∧ (∀ m, json_load text = Ok (to_json m) →
          _load_metadata json_load (Some (Ok text)) now = Ok (to_json m)).
Proof.
  assert (_load_metadata json_load (Some (Ok text)) now
          = Ok (match json_load text with
                | Ok (JDict kv) =>
                    match kv !! "documents" with
                    | None | Some (JStr _) | Some (JList _) | Some (JDict _) =>
                        JDict kv
                    | Some _ => to_json (_create_empty_metadata now)
                    end
                | _ => to_json (_create_empty_metadata now)
                end)) as Hload.
  { simpl. destruct (json_load text) as [data|e]; [|done].
    destruct data as [| | | | | |kv]; try done. simpl.
    destruct (kv !! "documents") as [[]|]; done. }
  split; [exact Hload|].
  intros m Hm. rewrite Hload, Hm. unfold to_json.
  by rewrite lookup_insert_ne, lookup_insert_ne, lookup_insert_eq.
Qed.

Lemma load_metadata_keeps_sized_documents_witness :
  let m := snd (register_document "t1" (_create_empty_metadata "t0")
                  "A1" "awr1.txt" 3 1200) in
  _load_metadata (λ _, Ok (to_json m)) (Some (Ok "saved")) "t2"
  = Ok (to_json m).
Proof.
  intros m.
  apply (load_metadata_keeps_sized_documents (λ _, Ok (to_json m))).
  reflexivity.
Defined.

End LedgerQueries.

(** * Further properties of the processor *)

Section BatchProcessing.
Import DocumentProcessor.
Context (env : Env) (str : raised → string).

Lemma success_of_weaken infos1 infos2 item :
  (∀ fi, fi ∈ infos1 → fi ∈ infos2) →
  success_of env infos1 item → success_of env infos2 item.
Proof.
  intros Hsub (fi & path & Hin & H). exists fi, path. split; [auto | exact H].
Qed.

Lemma failure_of_weaken infos1 infos2 item :
  (∀ fi, fi ∈ infos1 → fi ∈ infos2) →
  failure_of env str infos1 item → failure_of env str infos2 item.
Proof.
  intros Hsub (fi & Hin & H). exists fi. split; [auto | exact H].
Qed.

(** One turn of the loop on a descriptor that names its document: an
    item is appended to one of the two lists and nothing is raised. *)
Lemma process_file_named results fi :
  names_document fi →
  (∃ item,
     process_file env str results fi
     = Returns {| successful := successful results ++ [item];
                  failed := failed results |}
     ∧ success_of env [fi] item)
  ∨ (∃ item,
       process_file env str results fi
       = Returns {| successful := successful results;
                    failed := failed results ++ [item] |}
       ∧ failure_of env str [fi] item).
Proof.
  intros [[doc_id Hid] [fname Hname]].
  unfold process_file, getitem. rewrite Hid, Hname.
  destruct (fi !! "file_path") as [path|] eqn:Hpath; simpl.
  - destruct (load_and_split_document env path doc_id fname)
      as [chunks|e] eqn:Hload; simpl.
    + left. eexists. split; [reflexivity|].
      exists fi, path. simpl. split_and!; try done. apply list_elem_of_here.
    + right. eexists. split; [reflexivity|].
      exists fi. simpl. split_and!; try done; [apply list_elem_of_here|].
      right. by exists path, e.
  - right. eexists. split; [reflexivity|].
    exists fi. simpl. split_and!; try done; [apply list_elem_of_here|].
    by left.
Qed.

(** One turn of the loop on a descriptor without document id or without
    file name: the handler itself raises. *)
Lemma process_file_unnamed results fi :
  ¬ names_document fi →
  process_file env str results fi = Raises (KeyError "filename")
  ∨ process_file env str results fi = Raises (KeyError "doc_id").
Proof.
  intros Hnot. unfold process_file, getitem.
  destruct (fi !! "filename") as [fname|] eqn:Hname;
    destruct (fi !! "doc_id") as [doc_id|] eqn:Hid;
    destruct (fi !! "file_path") as [path|] eqn:Hpath; simpl; auto;
    destruct Hnot; split; eauto.
Qed.

Lemma process_loop_named all : ∀ rest acc,
  Forall names_document rest →
  (∀ fi, fi ∈ rest → fi ∈ all) →
  Forall (success_of env all) (successful acc) →
  Forall (failure_of env str all) (failed acc) →
  ∃ results,
    process_loop env str acc rest = Returns results
    ∧ (length (successful results) + length (failed results)
       = length (successful acc) + length (failed acc) + length rest)%nat
    ∧ Forall (success_of env all) (successful results)
    ∧ Forall (failure_of env str all) (failed results).
Proof.
  induction rest as [|fi rest IH]; intros acc Hnamed Hsub Hsucc Hfail.
  - exists acc. simpl. split_and!; [done | lia | done | done].
  - inversion Hnamed as [|? ? Hfi Hrest]; subst.
    assert (∀ fi', fi' ∈ [fi] → fi' ∈ all) as Hhere.
    { intros fi' ->%list_elem_of_singleton. apply Hsub, list_elem_of_here. }
    assert (∀ fi', fi' ∈ rest → fi' ∈ all) as Hthere.
    { intros fi' Hin. apply Hsub. by apply list_elem_of_further. }
    simpl.
    destruct (process_file_named acc fi Hfi)
      as [(item & -> & Hitem)|(item & -> & Hitem)]; simpl.
    + destruct (IH {| successful := successful acc ++ [item];
                      failed := failed acc |} Hrest Hthere)
        as (results & Hrun & Hlen & Hs & Hf); simpl.
      * apply Forall_app. split; [done|]. constructor; [|constructor].
        by apply (success_of_weaken [fi]).
      * done.
      * exists results. split_and!; try done.
        rewrite Hlen. simpl. rewrite length_app. simpl. lia.
    + destruct (IH {| successful := successful acc;
                      failed := failed acc ++ [item] |} Hrest Hthere)
        as (results & Hrun & Hlen & Hs & Hf); simpl.
      * done.
      * apply Forall_app. split; [done|]. constructor; [|constructor].
        by apply (failure_of_weaken [fi]).
      * exists results. split_and!; try done.
        rewrite Hlen. simpl. rewrite length_app. simpl. lia.
Qed.

Lemma process_loop_returns_named : ∀ rest acc results,
  process_loop env str acc rest = Returns results →
  Forall names_document rest.
Proof.
  induction rest as [|fi rest IH]; intros acc results Hrun; [constructor|].
  simpl in Hrun.
  destruct (process_file env str acc fi) as [acc'|e] eqn:Hfile; [|done].
  simpl in Hrun. constructor; [|by eapply IH].
  destruct (decide (names_document fi)) as [|Hnot]; [done|].
  destruct (process_file_unnamed acc fi Hnot); congruence.
Qed.


(** X9.  [process_multiple_documents] returns exactly when every
    descriptor has a document id and a file name.  A descriptor that
    lacks one of them makes the [except] clause raise [KeyError] for
    "filename" or for "doc_id", which ends the batch without a result. *)
Theorem process_multiple_documents_needs_names infos :
  ((∃ results, process_multiple_documents env str infos = Returns results)
   ↔ Forall names_document infos)
  ∧ (¬ Forall names_document infos →
       process_multiple_documents env str infos = Raises (KeyError "filename")
       ∨ process_multiple_documents env str infos = Raises (KeyError "doc_id")).
Proof.
  assert (∀ rest acc, ¬ Forall names_document rest →
            process_loop env str acc rest = Raises (KeyError "filename")
            ∨ process_loop env str acc rest = Raises (KeyError "doc_id"))
    as Hraise.
  { induction rest as [|fi rest IH]; intros acc Hnot.
    - destruct Hnot. constructor.
    - simpl. destruct (decide (names_document fi)) as [Hfi|Hfi].
      + destruct (process_file_named acc fi Hfi)
          as [(item & -> & _)|(item & -> & _)]; simpl;
          apply IH; intros Hrest; apply Hnot; by constructor.
      + destruct (process_file_unnamed acc fi Hfi) as [-> | ->]; auto. }
  split; [split|].
  - intros [results Hrun]. by eapply process_loop_returns_named.
  - intros Hnamed.
    destruct (process_loop_named infos infos
                {| successful := []; failed := [] |} Hnamed)
      as (results & Hrun & _); try done.
    by exists results.
  - apply Hraise.
Qed.

End BatchProcessing.

Section BatchProcessingExamples.
Import DocumentProcessor Examples.


(** X9 on a batch whose first descriptor has no file name. *)
Lemma process_multiple_documents_needs_names_witness :
  let env := one_file "awr1.txt" cpu in
  let infos := [ delete "filename" (descriptor "awr1.txt" "A1" "awr1.txt");
                 descriptor "awr1.txt" "A2" "awr1.txt" ] in
  process_multiple_documents env kind_of infos = Raises (KeyError "filename").
Proof.
  intros env infos.
  destruct (process_multiple_documents_needs_names env kind_of infos)
    as [_ Hraise].
  destruct Hraise as [H|H].
  - intros Hall. inversion Hall as [|? ? [_ [v Hv]] _]; subst.
    vm_compute in Hv. discriminate.
  - exact H.
  - vm_compute in H. discriminate.
Defined.

End BatchProcessingExamples.

Section LoadThenValidate.
Import DocumentProcessor.

Lemma load_and_split_chunks_stamped env file_path doc_id fname chunks :
  carries_metadata env →
  load_and_split_document env file_path doc_id fname = Ok chunks →
  Forall (stamped file_path doc_id fname) chunks.
Proof.
  intros Hcarries Hrun. unfold load_and_split_document in Hrun.
  destruct (os_path_exists env file_path); [|done]. simpl in Hrun.
  destruct (loader_load env file_path) as [docs|e]; [|done].
  destruct docs as [|doc docs]; [done|]. simpl in Hrun.
  injection Hrun as <-.
  apply Forall_forall. intros chunk Hin.
  apply Hcarries in Hin as (d & Hd & Hsub).
  change (stamp file_path doc_id fname doc
          :: map (stamp file_path doc_id fname) docs)
    with (map (stamp file_path doc_id fname) (doc :: docs)) in Hd.
  apply list_elem_of_In, in_map_iff in Hd as (d0 & <- & _).
  eapply stamped_weaken; [exact Hsub | apply stamp_stamped].
Qed.

(** X10.  On the chunks [load_and_split_document] returns, with a
    splitter that hands the metadata on, the check of the metadata in
    [validate_chunks] always passes: the chunks are rejected only when
    there is none or when one of them has a blank text. *)
Theorem validate_chunks_after_load env file_path doc_id fname chunks :
  carries_metadata env →
  load_and_split_document env file_path doc_id fname = Ok chunks →
  (validate_chunks chunks = true
   ↔ chunks ≠ [] ∧ Forall (λ chunk, ¬ blank (page_content chunk)) chunks).
Proof.
  intros Hcarries Hrun.
  pose proof (load_and_split_chunks_stamped _ _ _ _ _ Hcarries Hrun)
    as Hstamped.
  destruct chunks as [|chunk rest]; [by split; [|intros [? _]]|].
  unfold validate_chunks. rewrite validate_loop_iff.
  rewrite !Forall_forall. split.
  - intros Hwf. split; [done|]. intros c Hc. by apply Hwf.
  - intros [_ Htext] c Hc.
    rewrite Forall_forall in Hstamped.
    destruct (Hstamped c Hc) as (H1 & H2 & H3).
    split_and!; eauto.
Qed.

Lemma validate_chunks_after_load_witness :
  let env := Examples.one_file "awr1.txt" Examples.cpu in
  let chunks :=
    [ mkDocument Examples.cpu
        (<["source_path" := "awr1.txt"]>
         (<["filename" := "awr1.txt"]>
         (<["document_id" := "A1"]> {["source" := "awr1.txt"]}))) ] in
  load_and_split_document env "awr1.txt" "A1" "awr1.txt" = Ok chunks
  ∧ (validate_chunks chunks = true
     ↔ chunks ≠ [] ∧ Forall (λ chunk, ¬ blank (page_content chunk)) chunks).
Proof.
  intros env chunks.
  assert (load_and_split_document env "awr1.txt" "A1" "awr1.txt" = Ok chunks)
    as Hrun by reflexivity.
  split; [exact Hrun|].
  apply (validate_chunks_after_load env "awr1.txt" "A1" "awr1.txt" chunks).
  - apply short_splitter_carries_metadata.
  - exact Hrun.
Defined.

(** X11.  Whatever [load_and_split_document] raises is a
    [CustomException], and it wraps one of three causes: the
    [FileNotFoundError] for a path that does not exist, the exception
    of the loader, or the [ValueError] for a loader that returned no
    document. *)
Theorem load_and_split_document_raises env file_path doc_id fname e :
  load_and_split_document env file_path doc_id fname = Raise e →
  ∃ cause,
    e = CustomException cause
    ∧ ((os_path_exists env file_path = false
        ∧ cause = FileNotFoundError ("File not found: " +:+ file_path))
       ∨ (os_path_exists env file_path = true
          ∧ loader_load env file_path = Raise cause)
       ∨ (os_path_exists env file_path = true
          ∧ loader_load env file_path = Ok []
          ∧ cause = ValueError ("No content loaded from " +:+ fname))).
Proof.
  unfold load_and_split_document.
  destruct (os_path_exists env file_path); simpl.
  - destruct (loader_load env file_path) as [[|doc docs]|cause]; simpl;
      intros [= <-]; eexists; split; try reflexivity; auto.
  - intros [= <-]. eexists. split; [reflexivity|]. auto.
Qed.

Lemma load_and_split_document_raises_witness :
  let env := Examples.one_file "awr1.txt" Examples.cpu in
  ∃ cause,
    CustomException (FileNotFoundError "File not found: missing.txt")
    = CustomException cause
    ∧ ((os_path_exists env "missing.txt" = false
        ∧ cause = FileNotFoundError ("File not found: " +:+ "missing.txt"))
       ∨ (os_path_exists env "missing.txt" = true
          ∧ loader_load env "missing.txt" = Raise cause)
       ∨ (os_path_exists env "missing.txt" = true
          ∧ loader_load env "missing.txt" = Ok []
          ∧ cause = ValueError ("No content loaded from " +:+ "missing.txt"))).
Proof.
  intros env.
  apply (load_and_split_document_raises env "missing.txt" "A2" "missing.txt").
  reflexivity.
Defined.

End LoadThenValidate.

(** * Further properties of the vector store manager and the retriever *)

Section IndexingFailures.
Import VectorStoreManager.
Context {Store : Type} (lib : Qdrant Store).

(** X12.  [index_documents] raises nothing but [CustomException], and
    the collection it leaves is the one it found or the one
    [add_documents] left: a failed check after the documents were added
    does not take them out again.  On the empty list it returns the
    empty list without a call to the client. *)
Theorem index_documents_wraps_and_keeps (documents : list Document) (s : Store) :
  index_documents lib [] s = (Ok [], s, [WarnNoDocuments])
  ∧ (∀ e s' l, index_documents lib documents s = (Raise e, s', l) →
       ∃ cause, e = CustomException cause)
  ∧ (∀ r s' l, index_documents lib documents s = (r, s', l) →
       s' = s ∨ (documents ≠ [] ∧ s' = (add_documents lib documents s).2)).
Proof.
  split; [reflexivity|].
  unfold index_documents, get_vectorstore, try_prog, mbind, prog_bind,
    read, update, log, raise, mret, prog_ret.
  destruct documents as [|doc rest].
  { split; intros; simplify_eq/=; auto. }
  destruct (get_collection lib s) as [before|e0]; simpl.
  2: { split; intros; simplify_eq/=; eauto. }
  destruct (new_vectorstore lib s) as [[]|e0]; simpl.
  2: { split; intros; simplify_eq/=; eauto. }
  destruct (add_documents lib (doc :: rest) s) as [[ids|e0] s1] eqn:Hadd;
    simpl.
  2: { split; intros; simplify_eq/=; eauto. }
  destruct (get_collection lib s1) as [after|e0]; simpl.
  2: { split; intros; simplify_eq/=; eauto. }
  destruct (after - before =? 0); simpl.
  { split; intros; simplify_eq/=; eauto. }
  destruct (after - before =? Z.of_nat (S (length rest))); simpl;
    split; intros; simplify_eq/=; eauto.
Qed.

(** X13.  When the point count cannot be read or the vector store cannot
    be built, [index_documents] raises before anything is added: the
    collection is left as it was.  The failure of the vector store
    arrives wrapped twice, once by [get_vectorstore] and once by
    [index_documents]. *)
Theorem index_documents_fails_before_adding
    (doc : Document) (rest : list Document) (s : Store) (e : exn) :
  (get_collection lib s = Raise e →
     index_documents lib (doc :: rest) s
     = (Raise (CustomException e), s, [ErrIndexingFailed e]))
  ∧ (∀ before, get_collection lib s = Ok before →
       new_vectorstore lib s = Raise e →
       index_documents lib (doc :: rest) s
       = (Raise (CustomException (CustomException e)), s,
          [ErrVectorstoreFailed e;
           ErrIndexingFailed (CustomException e)])).
Proof.
  unfold index_documents, get_vectorstore, try_prog, mbind, prog_bind,
    read, update, log, raise, mret, prog_ret.
  split.
  - intros ->. reflexivity.
  - intros before -> ->. reflexivity.
Qed.

End IndexingFailures.

Section RetrievalFailures.
Import DocumentRetriever.
Context {Store : Type} (lib : Qdrant Store).

(** X14.  [retrieve_documents] never changes the collection.  When the
    vector store cannot be built it raises the [CustomException] of
    [get_vectorstore] without asking the library; an exception of the
    search itself is logged once and raised again as it is, not
    wrapped. *)
Theorem retrieve_documents_reads_only
    (query : string) (doc_ids : list string) (k : Z) (s : Store) :
  (retrieve_documents lib query doc_ids k s).1.2 = s
  ∧ (∀ e, new_vectorstore lib s = Raise e →
       retrieve_documents lib query doc_ids k s
       = (Raise (CustomException e), s, [ErrVectorstoreFailed e]))
  ∧ (∀ e,
       new_vectorstore lib s = Ok () →
       invoke lib
         {| search_type := "similarity"; search_k := k;
            search_filter :=
              match doc_ids with
              | [] => None
              | _ :: _ =>
                  Some {| must := [ {| key := "metadata.document_id";
                                       match_cond := MatchAny doc_ids |} ] |}
              end |} query s = Raise e →
       retrieve_documents lib query doc_ids k s
       = (Raise e, s, [ErrRetrievalFailed e])).
Proof.
  unfold retrieve_documents, get_filtered_retriever,
    get_unfiltered_retriever, VectorStoreManager.get_vectorstore,
    try_prog, mbind, prog_bind, read, log, raise, mret, prog_ret.
  split_and!.
  - destruct doc_ids; destruct (new_vectorstore lib s) as [[]|e0]; simpl;
      try done;
      match goal with |- context [invoke lib ?r query s] =>
        by destruct (invoke lib r query s) end.
  - intros e He. destruct doc_ids; by rewrite He.
  - intros e Hvs Hinv. destruct doc_ids; rewrite Hvs; simpl; by rewrite Hinv.
Qed.

End RetrievalFailures.

Section FailureExamples.
Import VectorStoreManager DocumentRetriever Examples.

(** X13 and X14 on a collection whose vector store cannot be built. *)
Lemma index_documents_fails_before_adding_witness :
  let lib := {| get_collection := λ s : list Document, Ok (Z.of_nat (length s));
                new_vectorstore := λ _, Raise (LibraryError "no collection");
                add_documents := add_documents (memory (λ docs, docs));
                invoke := invoke (memory (λ docs, docs)) |} in
  let c1 := chunk cpu "A1" "awr1.txt" "/tmp/awr1.txt" in
  index_documents lib [c1] []
  = (Raise (CustomException (CustomException (LibraryError "no collection"))),
     [],
     [ErrVectorstoreFailed (LibraryError "no collection");
      ErrIndexingFailed (CustomException (LibraryError "no collection"))]).
Proof.
  intros lib c1.
  apply (index_documents_fails_before_adding lib c1 [] []
           (LibraryError "no collection")) with (before := 0); reflexivity.
Defined.

Lemma retrieve_documents_reads_only_witness :
  let lib := {| get_collection := λ s : list Document, Ok (Z.of_nat (length s));
                new_vectorstore := λ _, Raise (LibraryError "no collection");
                add_documents := add_documents (memory (λ docs, docs));
                invoke := invoke (memory (λ docs, docs)) |} in
  retrieve_documents lib "cpu usage" ["A1"] 10 []
  = (Raise (CustomException (LibraryError "no collection")), [],
     [ErrVectorstoreFailed (LibraryError "no collection")]).
Proof.
  intros lib.
  apply (retrieve_documents_reads_only lib "cpu usage" ["A1"] 10 []).
  reflexivity.
Defined.

End FailureExamples.

Section CollectionManagement.
Import VectorStoreManager.
Context {Store : Type} (lib : Qdrant Store) (admin : QdrantAdmin Store).
Context (vector_size : Z) (str : exn → string).

Ltac run_admin :=
  unfold clear_collection, _ensure_collection_exists, get_collection_stats,
    admin_try, mbind, admin_prog_bind, admin_read, admin_update, admin_log,
    admin_raise, mret, admin_prog_ret.

(** X17.  [_ensure_collection_exists] leaves a collection that can be
    read as it is and creates nothing.  [clear_collection] raises nothing
    but [CustomException]; when the collection was dropped and can no
    longer be read it ends in the state [create_collection] leaves, with
    the manager's vector size and the cosine distance, and a failure of
    the creation arrives wrapped twice. *)
Theorem clear_collection_drops_then_creates (s : Store) :
  (∀ points, get_collection lib s = Ok points →
     _ensure_collection_exists lib admin vector_size s = (Ok (), s, []))
  ∧ (∀ e s' l, clear_collection lib admin vector_size s = (Raise e, s', l) →
       ∃ cause, e = CustomException cause)
  ∧ (∀ e s1, delete_collection admin s = (Raise e, s1) →
       clear_collection lib admin vector_size s
       = (Raise (CustomException e), s1, [ErrClearFailed e]))
  ∧ (∀ s1 e, delete_collection admin s = (Ok (), s1) →
       get_collection lib s1 = Raise e →
       clear_collection lib admin vector_size s
       = match create_collection admin vector_size COSINE s1 with
         | (Ok (), s2) => (Ok (), s2, [])
         | (Raise create_error, s2) =>
             (Raise (CustomException (CustomException create_error)), s2,
              [ErrCreateFailed create_error;
               ErrClearFailed (CustomException create_error)])
         end).
Proof.
  split_and!.
  - intros points Hread. run_admin. by rewrite Hread.
  - intros e s' l. run_admin.
    destruct (delete_collection admin s) as [[[]|e0] s1]; simpl.
    + destruct (get_collection lib s1) as [points|e1]; simpl.
      * intros [=].
      * destruct (create_collection admin vector_size COSINE s1)
          as [[[]|e2] s2]; simpl; intros [=]; subst; eauto.
    + intros [=]; subst; eauto.
  - intros e s1 Hdel. run_admin. by rewrite Hdel.
  - intros s1 e Hdel Hread. run_admin. rewrite Hdel. simpl.
    rewrite Hread. simpl.
    by destruct (create_collection admin vector_size COSINE s1)
      as [[[]|e2] s2].
Qed.

(** X18.  [get_collection_stats] never raises and never changes the
    collection: it returns the point count with the listed sample, or,
    when a call of the client fails, the text of the exception. *)
Theorem get_collection_stats_never_raises (s : Store) :
  ∃ stats l,
    get_collection_stats lib admin str s = (Ok stats, s, l)
    ∧ match get_collection lib s, scroll admin 5 s with
      | Ok points, Ok sample => stats = Stats points sample ∧ l = []
      | Raise e, _ | Ok _, Raise e =>
          stats = StatsError (str e) ∧ l = [ErrStatsFailed e]
      end.
Proof.
  run_admin.
  destruct (get_collection lib s) as [points|e]; simpl; [|eauto].
  destruct (scroll admin 5 s) as [sample|e]; simpl; [|eauto].
  do 2 eexists. split; [reflexivity|]. by destruct sample.
Qed.

End CollectionManagement.

Section CollectionManagementExamples.
Import VectorStoreManager Examples.

(** X17 on an in-memory collection with two points whose deletion
    empties it and makes it unreadable until it is created again. *)
Lemma clear_collection_drops_then_creates_witness :
  let lib : Qdrant (option (list Document)) :=
    {| get_collection := λ s,
         match s with
         | Some points => Ok (Z.of_nat (length points))
         | None => Raise (LibraryError "Collection not found")
         end;
       new_vectorstore := λ _, Ok ();
       add_documents := λ docs s,
         (Ok (replicate (length docs) "point-id"),
          Some (default [] s ++ docs));
       invoke := λ _ _ _, Ok [] |} in
  let admin : QdrantAdmin (option (list Document)) :=
    {| create_collection := λ _ _ _, (Ok (), Some []);
       delete_collection := λ _, (Ok (), None);
       scroll := λ limit s, Ok (take (Z.to_nat limit) (default [] s)) |} in
  let c1 := chunk cpu "A1" "awr1.txt" "/tmp/awr1.txt" in
  _ensure_collection_exists lib admin 384 (Some [c1; c1])
  = (Ok (), Some [c1; c1], [])
  ∧ clear_collection lib admin 384 (Some [c1; c1]) = (Ok (), Some [], []).
Proof.
  intros lib admin c1.
  destruct (clear_collection_drops_then_creates lib admin 384 (Some [c1; c1]))
    as (Hkeep & _ & _ & Hclear).
  split.
  - apply (Hkeep 2). reflexivity.
  - apply (Hclear None (LibraryError "Collection not found")); reflexivity.
Defined.

End CollectionManagementExamples.

(** * Properties of the session *)

Section Session.
Import SessionManager.
Context {RagManager VSM QueryResults EvaluationResults : Type}.
Local Abbreviation State :=
  (SessionState RagManager VSM QueryResults EvaluationResults).

(** X15.  After [initialize] every key of the session is present, and
    [initialize] changes nothing in a session where they already are:
    run again, as on every rerun of the page, it keeps the ingested
    documents, the processed files, the stored results and the vector
    store manager, and it does not build a vector store manager again,
    not even when the first attempt failed. *)
Theorem initialize_keeps_session (new_vsm again : result VSM) (st : State) :
  initialized (initialize new_vsm st)
  ∧ (initialized st → initialize new_vsm st = st)
  ∧ initialize again (initialize new_vsm st) = initialize new_vsm st
  ∧ (∀ docs, ingested_docs st = Some docs →
       ingested_docs (initialize new_vsm st) = Some docs)
  ∧ (∀ files, processed_files st = Some files →
       processed_files (initialize new_vsm st) = Some files).
Proof.
  destruct st as [rag vsm docs files query evaluation].
  split_and!.
  - unfold initialized, initialize. simpl.
    destruct rag, vsm, docs, files, query, evaluation; split_and!; eauto.
  - intros ([? Hr] & [? Hv] & [? Hd] & [? Hf] & [? Hq] & [? He]).
    simpl in *. subst. reflexivity.
  - unfold initialize. simpl.
    by destruct rag, vsm, docs, files, query, evaluation.
  - simpl. by intros ? ->.
  - simpl. by intros ? ->.
Qed.

(** X16.  In an initialised session [get_vector_store_manager] raises
    nothing and keeps the session initialised.  A manager that is stored
    is returned without building another one.  When none is stored,
    because building it failed during [initialize], it builds one and
    stores it, or returns [None] and leaves the session as it is when
    building fails again. *)
Theorem get_vector_store_manager_retries (new_vsm : result VSM) (st : State) :
  (initialized st →
     ∃ r st', get_vector_store_manager new_vsm st = (Ok r, st')
              ∧ initialized st')
  ∧ (∀ manager, vector_store_manager st = Some (Some manager) →
       get_vector_store_manager new_vsm st = (Ok (Some manager), st))
  ∧ (∀ e manager,
       vector_store_manager st = None →
       let failed := initialize (Raise e) st in
       vector_store_manager failed = Some None
       ∧ (get_vector_store_manager (Raise e) failed) = (Ok None, failed)
       ∧ (get_vector_store_manager (Ok manager) failed).1 = Ok (Some manager)
       ∧ vector_store_manager (get_vector_store_manager (Ok manager) failed).2
         = Some (Some manager)).
Proof.
  destruct st as [rag vsm docs files query evaluation].
  unfold get_vector_store_manager. simpl. split_and!.
  - intros (Hr & [v Hv] & Hd & Hf & Hq & He). simpl in *. subst.
    destruct v as [manager|].
    { do 2 eexists. split; [reflexivity|]. by repeat split. }
    destruct new_vsm as [manager|e]; do 2 eexists; (split; [reflexivity|]);
      by repeat split.
  - by intros manager ->.
  - intros e manager ->. simpl. by repeat split.
Qed.

End Session.

Section SessionExamples.
Import SessionManager.

(** X15 on a session that holds one ingested document and misses the
    other keys. *)
Lemma initialize_keeps_session_witness :
  let st : SessionState () string () () :=
    mkSessionState None None (Some {["A1" := "awr1.txt"]}) None None None in
  let st1 := initialize (Ok "manager") st in
  ingested_docs st1 = Some {["A1" := "awr1.txt"]}
  ∧ initialized st1
  ∧ initialize (Raise (LibraryError "unreachable")) st1 = st1.
Proof.
  intros st st1.
  destruct (initialize_keeps_session
              (Ok "manager") (Raise (LibraryError "unreachable")) st)
    as (Hinit & _ & _ & Hdocs & _).
  destruct (initialize_keeps_session
              (Raise (LibraryError "unreachable"))
              (Raise (LibraryError "unreachable")) st1)
    as (_ & Hsame & _).
  split_and!.
  - apply Hdocs. reflexivity.
  - exact Hinit.
  - apply Hsame. exact Hinit.
Defined.

(** X16 on a session whose vector store manager could not be built
    during [initialize]. *)
Lemma get_vector_store_manager_retries_witness :
  let st : SessionState () string () () :=
    mkSessionState None None None None None None in
  let failed := initialize (Raise (LibraryError "unreachable")) st in
  vector_store_manager failed = Some None
  ∧ get_vector_store_manager (Raise (LibraryError "unreachable")) failed
    = (Ok None, failed)
  ∧ (get_vector_store_manager (Ok "manager") failed).1 = Ok (Some "manager")
  ∧ vector_store_manager (get_vector_store_manager (Ok "manager") failed).2
    = Some (Some "manager").
Proof.
  intros st failed.
  destruct (get_vector_store_manager_retries (Ok "manager") st)
    as (_ & _ & Hretry).
  apply (Hretry (LibraryError "unreachable") "manager"). reflexivity.
Defined.

End SessionExamples.

Section IndexingFailureExamples.
Import VectorStoreManager Examples.

(** X12 on an in-memory collection that keeps the first document of a
    batch and on one that keeps none. *)
Lemma index_documents_wraps_and_keeps_witness :
  let c1 := chunk cpu "A1" "awr1.txt" "/tmp/awr1.txt" in
  (∃ cause,
     (index_documents (memory (λ _, [])) [c1] [c1]).1.1
     = Raise (CustomException cause))
  ∧ (index_documents (memory (take 1)) [c1; c1] []).1.2
    = (add_documents (memory (take 1)) [c1; c1] []).2.
Proof.
  intros c1.
  destruct (index_documents_wraps_and_keeps (memory (λ _, [])) [c1] [c1])
    as (_ & Hwrap & _).
  destruct (index_documents_wraps_and_keeps (memory (take 1)) [c1; c1] [])
    as (_ & _ & Hkeep).
  assert (index_documents (memory (λ _, [])) [c1] [c1]
          = (Raise (CustomException no_points), [c1],
             [ErrNoPointsAdded; ErrIndexingFailed no_points])) as Hnone
    by reflexivity.
  assert (index_documents (memory (take 1)) [c1; c1] []
          = (Ok ["point-id"; "point-id"], [c1], [WarnPointsMismatch 2 1]))
    as Hone by reflexivity.
  split.
  - destruct (Hwrap _ _ _ Hnone) as [cause Hcause].
    exists cause. by rewrite Hnone, Hcause.
  - destruct (Hkeep _ _ _ Hone) as [Hs|[_ Hs]].
    + discriminate Hs.
    + by rewrite Hone.
Defined.

End IndexingFailureExamples.

(** * Properties of the ingestion of uploaded files *)

Section Ingestion.
Import MetadataManager SessionManager DocumentUploader.
Context {Store RagManager QueryResults EvaluationResults : Type}.
Local Abbreviation TheWorld :=
  (@World Store RagManager QueryResults EvaluationResults).

(** X19.  A turn of the loop of [handle_ingestion] whose file is saved,
    loaded and indexed, in a session that holds the two collections of
    names, leaves the collection as [index_documents] left it, registers
    the document under the drawn id with the number of chunks that were
    handed to [index_documents] and the size of the upload, records the
    id and the name in the session, and marks the name as processed. *)
Theorem ingest_upload_registers_indexed_chunks
    (lib : Qdrant Store) (w : TheWorld) (u : Upload)
    chunks ids s logged docs files :
  upload_saved u = Ok () →
  DocumentProcessor.load_and_split_document (upload_env u)
    (path_join TEMP_DIR (upload_name u)) (upload_doc_id u) (upload_name u)
  = Ok chunks →
  VectorStoreManager.index_documents lib chunks (collection w)
  = (Ok ids, s, logged) →
  ingested_docs (session w) = Some docs →
  processed_files (session w) = Some files →
  let w' := (ingest_upload lib w u).1.1 in
  collection w' = s
  ∧ ledger w' = step (ledger w) (registration u chunks)
  ∧ get_document_info (ledger w') (upload_doc_id u)
    = Some (mkDocInfo (upload_name u) (Z.of_nat (length chunks))
              (upload_size u) (upload_now u) "indexed" None)
  ∧ ingested_docs (session w')
    = Some (<[upload_doc_id u := upload_name u]> docs)
  ∧ is_file_processed (upload_name u) (session w') = Ok true
  ∧ ShowIndexed (upload_name u) (upload_doc_id u)
    ∈ (ingest_upload lib w u).1.2.
Proof.
  intros Hsaved Hload Hindex Hdocs Hfiles.
  unfold ingest_upload, add_ingested_document, add_processed_file.
  rewrite Hsaved, Hload, Hindex, Hdocs. simpl. rewrite Hfiles.
  destruct (upload_removed u); simpl;
    (split_and!;
     [ done | done
     | unfold get_document_info; simpl; by rewrite lookup_insert_eq
     | done
     | unfold is_file_processed; simpl; f_equal;
       apply bool_decide_eq_true_2; set_solver
     | apply list_elem_of_here ]).
Qed.

(** X20.  A file that is saved and loaded but splits into no chunk is
    shown as indexed: the collection is not touched, and the document is
    registered with a chunk count of zero. *)
Theorem ingest_upload_registers_empty_document
    (lib : Qdrant Store) (w : TheWorld) (u : Upload) docs files :
  upload_saved u = Ok () →
  DocumentProcessor.load_and_split_document (upload_env u)
    (path_join TEMP_DIR (upload_name u)) (upload_doc_id u) (upload_name u)
  = Ok [] →
  ingested_docs (session w) = Some docs →
  processed_files (session w) = Some files →
  let '(w', shown, logged) := ingest_upload lib w u in
  collection w' = collection w
  ∧ (∃ d, get_document_info (ledger w') (upload_doc_id u) = Some d
          ∧ chunk_count d = 0 ∧ status d = "indexed")
  ∧ total_chunks (statistics (ledger w'))
    = total_chunks (statistics (ledger w))
  ∧ ShowIndexed (upload_name u) (upload_doc_id u) ∈ shown
  ∧ logged = [WarnNoDocuments].
Proof.
  intros Hsaved Hload Hdocs Hfiles.
  unfold ingest_upload, add_ingested_document, add_processed_file.
  rewrite Hsaved, Hload. simpl. rewrite Hdocs. simpl. rewrite Hfiles.
  destruct (upload_removed u); simpl;
    (split_and!;
     [ done
     | unfold get_document_info; simpl; rewrite lookup_insert_eq; eauto
     | lia
     | apply list_elem_of_here
     | done ]).
Qed.

(** X21.  A turn of the loop changes the ledger in one way only: by the
    registration of its file, made after the file was saved and loaded
    and after [index_documents] returned on its chunks.  Otherwise it
    leaves the ledger and the session as they were, and when the save or
    the load failed also the collection. *)
Theorem ingest_upload_registers_after_indexing
    (lib : Qdrant Store) (w : TheWorld) (u : Upload) :
  let w' := (ingest_upload lib w u).1.1 in
  (ledger w' = ledger w ∧ session w' = session w
   ∧ (collection w' = collection w
      ∨ ∃ chunks e logged,
          DocumentProcessor.load_and_split_document (upload_env u)
            (path_join TEMP_DIR (upload_name u))
            (upload_doc_id u) (upload_name u) = Ok chunks
          ∧ VectorStoreManager.index_documents lib chunks (collection w)
            = (Raise e, collection w', logged)))
  ∨ (∃ chunks ids logged,
       upload_saved u = Ok ()
       ∧ DocumentProcessor.load_and_split_document (upload_env u)
           (path_join TEMP_DIR (upload_name u))
           (upload_doc_id u) (upload_name u) = Ok chunks
       ∧ VectorStoreManager.index_documents lib chunks (collection w)
         = (Ok ids, collection w', logged)
       ∧ ledger w' = step (ledger w) (registration u chunks)).
Proof.
  unfold ingest_upload.
  destruct (upload_saved u) as [[]|e]; simpl;
    [|left; split_and!; [done | done | by left]].
  destruct (DocumentProcessor.load_and_split_document _ _ _ _)
    as [chunks|e] eqn:Hload; simpl;
    [|left; split_and!; [done | done | by left]].
  destruct (VectorStoreManager.index_documents lib chunks (collection w))
    as [[[ids|e] s] logged] eqn:Hindex; simpl.
  - right. exists chunks, ids, logged.
    destruct (add_ingested_document _ _ _) as [[[]|e1] st1]; simpl;
      [|by split_and!].
    destruct (add_processed_file _ _) as [[[]|e2] st2]; simpl;
      [|by split_and!].
    destruct (upload_removed u) as [[]|e3]; simpl; by split_and!.
  - left. split_and!; [done | done |]. right. by exists chunks, e, logged.
Qed.




End Ingestion.

Section IngestionExamples.
Import MetadataManager SessionManager DocumentUploader Examples.

(** X19 on the upload of a file holding "cpu" in a fresh session. *)
Lemma ingest_upload_registers_indexed_chunks_witness :
  let lib := memory (λ docs, docs) in
  let u := upload "awr1.txt" "A1" cpu 1200 in
  let w' := (ingest_upload lib fresh_world u).1.1 in
  length (collection w') = 1%nat
  ∧ get_document_info (ledger w') "A1"
    = Some (mkDocInfo "awr1.txt" 1 1200 "t1" "indexed" None)
  ∧ ingested_docs (session w') = Some {["A1" := "awr1.txt"]}
  ∧ is_file_processed "awr1.txt" (session w') = Ok true.
Proof.
  intros lib u w'.
  destruct (ingest_upload_registers_indexed_chunks lib fresh_world u
              [ mkDocument cpu
                  (<["source_path" := "temp_files/awr1.txt"]>
                   (<["filename" := "awr1.txt"]>
                   (<["document_id" := "A1"]>
                      {["source" := "temp_files/awr1.txt"]}))) ]
              ["point-id"]
              [ mkDocument cpu
                  (<["source_path" := "temp_files/awr1.txt"]>
                   (<["filename" := "awr1.txt"]>
                   (<["document_id" := "A1"]>
                      {["source" := "temp_files/awr1.txt"]}))) ]
              [] ∅ ∅)
    as (Hcoll & _ & Hinfo & Hdocs & Hfile & _); try reflexivity.
  fold w' in Hcoll, Hinfo, Hdocs, Hfile.
  split_and!.
  - by rewrite Hcoll.
  - exact Hinfo.
  - exact Hdocs.
  - exact Hfile.
Defined.

(** X20 on the upload of an empty file in a fresh session. *)
Lemma ingest_upload_registers_empty_document_witness :
  let lib := memory (λ docs, docs) in
  let u := upload "empty.txt" "E1" [] 0 in
  let '(w', shown, logged) := ingest_upload lib fresh_world u in
  collection w' = []
  ∧ (∃ d, get_document_info (ledger w') "E1" = Some d
          ∧ chunk_count d = 0 ∧ status d = "indexed")
  ∧ total_chunks (statistics (ledger w')) = 0
  ∧ ShowIndexed "empty.txt" "E1" ∈ shown
  ∧ logged = [WarnNoDocuments].
Proof.
  exact (ingest_upload_registers_empty_document
           (memory (λ docs, docs)) fresh_world (upload "empty.txt" "E1" [] 0)
           ∅ ∅ eq_refl eq_refl eq_refl eq_refl).
Defined.


End IngestionExamples.
